(** * form2json: a Caddy HTTP handler that rewrites POSTed forms as JSON

    Shallow embedding of [handler.go] (package [form2json]) together with the
    parts of the Go standard library whose behaviour the handler relies on.

    Conventions of the embedding:
    - a Go [string] is a Rocq [string] (a sequence of 8-bit characters), a Go
      [[]byte] is a [list byte];
    - [int64] and [int] values are [Z]; no operation of the handler can leave
      the 64-bit range, so no wrap-around is written out;
    - a Go [error] result is an [option error] ([None] is [nil]), a result
      with a value is a sum [A + error];
    - Go maps are [gmap]s; the unspecified iteration order of [range] over a
      map is supplied by the environment;
    - [*http.Request] is mutated in place by the handler: the model passes
      the request record along explicitly and every outcome carries the final
      state of the request. *)

From Stdlib Require Import ZArith NArith Ascii String List Bool Lia ZifyNat.
From Stdlib.Strings Require Import Byte.
From stdpp Require Import base option list gmap strings pretty fin_maps.

Local Open Scope Z_scope.

(** ** Errors *)

(** Go [error] values.  The three named sentinels are the ones
    [net/http.Request.ParseMultipartForm] produces on its own; every other
    error (I/O failures, malformed multipart bodies, ...) is an opaque
    message. *)
Inductive error : Type :=
| ErrNotMultipart        (* http.ErrNotMultipart *)
| ErrMissingBoundary     (* http.ErrMissingBoundary *)
| ErrMultipartByReader   (* errors.New("http: multipart handled by MultipartReader") *)
| errors_New (msg : string).

(** ** Package [strings] *)
Module strings.

(** [strings.HasPrefix]:
    [len(s) >= len(prefix) && s[:len(prefix)] == prefix]. *)
Definition HasPrefix (s prefix : string) : bool :=
  (String.length prefix <=? String.length s)%nat
  && String.eqb (substring 0 (String.length prefix) s) prefix.

(** [c >= utf8.RuneSelf] on a byte. *)
Definition nonASCII (c : ascii) : bool := (128 <=? N_of_ascii c)%N.

Definition isUpper (c : ascii) : bool :=
  ((65 <=? N_of_ascii c) && (N_of_ascii c <=? 90))%N.
Definition isLower (c : ascii) : bool :=
  ((97 <=? N_of_ascii c) && (N_of_ascii c <=? 122))%N.

(** ['A'..'Z'] shifted by ['a' - 'A']. *)
Definition lowerByte (c : ascii) : ascii :=
  if isUpper c then ascii_of_N (N_of_ascii c + 32) else c.
Definition upperByte (c : ascii) : ascii :=
  if isLower c then ascii_of_N (N_of_ascii c - 32) else c.

Fixpoint mapBytes (f : ascii -> ascii) (s : string) : string :=
  match s with
  | EmptyString => EmptyString
  | String c s' => String (f c) (mapBytes f s')
  end.

Fixpoint existsb (p : ascii -> bool) (s : string) : bool :=
  match s with
  | EmptyString => false
  | String c s' => p c || existsb p s'
  end.

(** [strings.ToLower]: strings made of ASCII bytes only are mapped byte by
    byte; any other string goes through [Map(unicode.ToLower, s)], which is
    the parameter [slow]. *)
Definition ToLower (slow : string -> string) (s : string) : string :=
  if existsb nonASCII s then slow s else mapBytes lowerByte s.

(** The table [asciiSpace]: tab, newline, vertical tab, form feed,
    carriage return and space. *)
Definition asciiSpace (c : ascii) : bool :=
  let n := N_of_ascii c in
  ((n =? 9) || (n =? 10) || (n =? 11) || (n =? 12) || (n =? 13) || (n =? 32))%N.

Fixpoint rev_append (s acc : string) : string :=
  match s with
  | EmptyString => acc
  | String c s' => rev_append s' (String c acc)
  end.
Definition rev (s : string) : string := rev_append s EmptyString.

(** Second loop of [strings.TrimSpace], run on the reversed string
    [s[start:]]: [inl t] when the scan stops at an ASCII non-space
    ([t] is [s[start:stop]] reversed), [inr t] when it meets a non-ASCII
    byte first. *)
Fixpoint trimEndASCII (rs : string) : string + string :=
  match rs with
  | EmptyString => inl EmptyString
  | String c rs' =>
      if nonASCII c then inr rs
      else if asciiSpace c then trimEndASCII rs'
      else inl rs
  end.

(** [strings.TrimSpace].  [slowBoth] is [TrimFunc(_, unicode.IsSpace)] and
    [slowRight] is [TrimRightFunc(_, unicode.IsSpace)], the fall-backs taken
    when a non-ASCII byte is met while scanning from the start,
    respectively from the end. *)
Fixpoint TrimSpace (slowBoth slowRight : string -> string) (s : string) : string :=
  match s with
  | EmptyString => EmptyString
  | String c s' =>
      if nonASCII c then slowBoth s
      else if asciiSpace c then TrimSpace slowBoth slowRight s'
      else match trimEndASCII (rev s) with
           | inl t => rev t
           | inr t => slowRight (rev t)
           end
  end.

(** [before, _, _ := strings.Cut(s, sep)] for a one-byte separator: the
    text before the first [sep], or all of [s] when there is none. *)
Fixpoint CutBefore (sep : ascii) (s : string) : string :=
  match s with
  | EmptyString => EmptyString
  | String c s' => if Ascii.eqb c sep then EmptyString else String c (CutBefore sep s')
  end.

(** [s[n:]] *)
Fixpoint drop (n : nat) (s : string) : string :=
  match n, s with
  | O, _ => s
  | S n', String _ s' => drop n' s'
  | S _, EmptyString => EmptyString
  end.

End strings.

(** ** Package [io] *)

(** An [io.Reader] (a request body, an opened [multipart.File]) seen as the
    sequence of results its successive [Read] calls give: a chunk of bytes
    and the rest of the stream, the end of the stream, or an I/O error. *)
Inductive Reader : Type :=
| EOF
| Data (p : list byte) (rest : Reader)
| Fail (e : error).

(** The reader over a byte slice ([bytes.NewReader], [io.SectionReader],
    [bytes.Buffer]): one chunk, then the end of the stream. *)
Definition bytes_NewReader (b : list byte) : Reader := Data b EOF.

(** What a reader yields when it is read to its end without error. *)
Fixpoint ReadAll (f : Reader) : list byte + error :=
  match f with
  | EOF => inl []
  | Fail e => inr e
  | Data p rest =>
      match ReadAll rest with
      | inl q => inl (p ++ q)
      | inr e => inr e
      end
  end.

(** ** Package [encoding/base64] *)
Module base64.

Definition Z_of_byte (b : byte) : Z := Z.of_N (Byte.to_N b).

(** The conversion [byte(x)] of an unsigned integer: the low eight bits. *)
Definition byte_of_Z (x : Z) : byte :=
  match Byte.of_N (Z.to_N (Z.land x 255)) with
  | Some b => b
  | None => x00
  end.

(** [const encodeStd] *)
Definition encodeStd : string :=
  "ABCDEFGHIJKLMNOPQRSTUVWXYZabcdefghijklmnopqrstuvwxyz0123456789+/".

(** [StdPadding] *)
Definition padChar : byte := "="%byte.

(** [enc.encode[i]] *)
Definition encode (i : Z) : byte :=
  nth (Z.to_nat i) (list_byte_of_string encodeStd) x00.

(** [enc.decodeMap[c]]: the table is filled with [0xFF] and then
    [decodeMap[encoder[i]] = i] for every [i]. *)
Fixpoint decodeMap_from (tbl : list byte) (i : Z) (c : byte) : Z :=
  match tbl with
  | [] => 255
  | e :: tbl' => if Byte.eqb e c then i else decodeMap_from tbl' (i + 1) c
  end.
Definition decodeMap (c : byte) : Z :=
  decodeMap_from (list_byte_of_string encodeStd) 0 c.

(** The four output characters of a 24-bit group [val]. *)
Definition sextet (val : Z) (shift : Z) : Z := Z.land (Z.shiftr val shift) 63.

(** [Encoding.Encode] for [StdEncoding]: whole groups of three source
    bytes give four characters; a rest of one or two bytes gives two or
    three characters and padding. *)
Fixpoint Encode (src : list byte) : list byte :=
  match src with
  | [] => []
  | [a] =>
      let val := Z.shiftl (Z_of_byte a) 16 in
      [encode (sextet val 18); encode (sextet val 12); padChar; padChar]
  | [a; b] =>
      let val := Z.lor (Z.shiftl (Z_of_byte a) 16) (Z.shiftl (Z_of_byte b) 8) in
      [encode (sextet val 18); encode (sextet val 12); encode (sextet val 6); padChar]
  | a :: b :: c :: rest =>
      let val := Z.lor (Z.lor (Z.shiftl (Z_of_byte a) 16) (Z.shiftl (Z_of_byte b) 8))
                       (Z_of_byte c) in
      encode (sextet val 18) :: encode (sextet val 12)
        :: encode (sextet val 6) :: encode (sextet val 0) :: Encode rest
  end.

(** The streaming encoder returned by [base64.NewEncoder(StdEncoding, w)]
    with [w] a [*bytes.Buffer]: [buf] holds the [nbuf] pending source bytes,
    [w] is what has been written to the buffer so far.  Writes to a
    [bytes.Buffer] do not fail, so the encoder's [err] field stays [nil]. *)
Record encoder : Type := mkEncoder { buf : list byte; w : list byte }.

Definition NewEncoder : encoder := mkEncoder [] [].

(** The loop "large interior chunks" of [encoder.Write]: [e.out] has
    1024 bytes, so at most 768 source bytes are encoded per round. *)
Fixpoint interior (fuel : nat) (out p : list byte) : list byte * list byte :=
  match fuel with
  | O => (out, p)
  | S fuel' =>
      if (3 <=? length p)%nat then
        let nn := if (length p <? 768)%nat
                  then (length p - length p mod 3)%nat else 768%nat in
        interior fuel' (out ++ Encode (take nn p)) (drop nn p)
      else (out, p)
  end.

(** [encoder.Write] *)
Definition Write (e : encoder) (p : list byte) : encoder :=
  (* leading fringe *)
  let i := if (0 <? length (buf e))%nat
           then Nat.min (length p) (3 - length (buf e)) else 0%nat in
  let b1 := buf e ++ take i p in
  let p1 := drop i p in
  if (0 <? length (buf e))%nat && (length b1 <? 3)%nat then mkEncoder b1 (w e)
  else
    let w1 := if (0 <? length (buf e))%nat then w e ++ Encode b1 else w e in
    (* large interior chunks *)
    let '(w2, p2) := interior (length p1) w1 p1 in
    (* trailing fringe *)
    mkEncoder p2 w2.

(** [encoder.Close]: flush a partially filled group, with padding. *)
Definition Close (e : encoder) : encoder :=
  if (0 <? length (buf e))%nat then mkEncoder [] (w e ++ Encode (buf e)) else e.

(** [io.Copy(b64enc, f)]: every chunk read is written to the encoder; a
    read error other than end-of-stream stops the copy and is returned. *)
Fixpoint io_Copy (e : encoder) (f : Reader) : encoder * option error :=
  match f with
  | EOF => (e, None)
  | Fail err => (e, Some err)
  | Data p rest => io_Copy (Write e p) rest
  end.

(** Reference decoder, RFC 4648 section 4 with mandatory padding (what
    [StdEncoding.DecodeString] accepts on input without line breaks): four
    characters of the alphabet give three bytes, and only the last group
    may end in one or two padding characters.  It is not called by the
    handler; the round-trip law of file values is stated with it. *)
Definition valid (c : byte) : bool := negb (decodeMap c =? 255).

Definition group (c1 c2 c3 c4 : byte) : Z :=
  Z.lor (Z.lor (Z.lor (Z.shiftl (decodeMap c1) 18) (Z.shiftl (decodeMap c2) 12))
               (Z.shiftl (decodeMap c3) 6)) (decodeMap c4).

Fixpoint Decode (src : list byte) : option (list byte) :=
  match src with
  | [] => Some []
  | c1 :: c2 :: c3 :: c4 :: rest =>
      if valid c1 && valid c2 then
        match rest with
        | [] =>
            if Byte.eqb c4 padChar then
              if Byte.eqb c3 padChar then
                Some [byte_of_Z (Z.shiftr (group c1 c2 "A"%byte "A"%byte) 16)]
              else if valid c3 then
                let val := group c1 c2 c3 "A"%byte in
                Some [byte_of_Z (Z.shiftr val 16); byte_of_Z (Z.shiftr val 8)]
              else None
            else if valid c3 && valid c4 then
              let val := group c1 c2 c3 c4 in
              Some [byte_of_Z (Z.shiftr val 16); byte_of_Z (Z.shiftr val 8); byte_of_Z val]
            else None
        | _ =>
            if valid c3 && valid c4 then
              let val := group c1 c2 c3 c4 in
              match Decode rest with
              | Some tl =>
                  Some (byte_of_Z (Z.shiftr val 16) :: byte_of_Z (Z.shiftr val 8)
                          :: byte_of_Z val :: tl)
              | None => None
              end
            else None
        end
      else None
  | _ => None
  end.

Definition EncodeToString (src : list byte) : string :=
  string_of_list_byte (Encode src).

Definition DecodeString (s : string) : option (list byte) :=
  Decode (list_byte_of_string s).

(** Characters of base64 text: the alphabet and the padding character. *)
Definition base64_char (c : byte) : bool := valid c || Byte.eqb c padChar.

(** Base64 text without line breaks: no line feed, no carriage return, only
    characters of the alphabet and padding. *)
Definition no_line_breaks (s : string) : Prop :=
  ~ In x0a (list_byte_of_string s) /\ ~ In x0d (list_byte_of_string s)
  /\ Forall (fun c => base64_char c = true) (list_byte_of_string s).

(** What is checked of every index of the alphabet: it decodes to itself and
    is neither the padding character, a line feed nor a carriage return. *)
Definition alphabet_ok (i : Z) : bool :=
  (decodeMap (encode i) =? i)
  && negb (Byte.eqb (encode i) padChar)
  && negb (Byte.eqb (encode i) x0a) && negb (Byte.eqb (encode i) x0d).

(** The encoder holds the encoding of [d]: what was written so far encodes a
    prefix made of whole groups, the rest is pending in [buf]. *)
Definition represents (e : encoder) (d : list byte) : Prop :=
  exists x, d = x ++ buf e /\ w e = Encode x
            /\ (length x mod 3 = 0)%nat /\ (length (buf e) < 3)%nat.

End base64.

(** ** Package [net/textproto] and [http.Header] *)
Module textproto.

Definition isDigit (c : ascii) : bool :=
  ((48 <=? N_of_ascii c) && (N_of_ascii c <=? 57))%N.

(** [validHeaderFieldByte]: the token characters of RFC 7230. *)
Definition validHeaderFieldByte (c : ascii) : bool :=
  strings.isUpper c || strings.isLower c || isDigit c
  || strings.existsb (Ascii.eqb c) "!#$%&'*+-.^_`|~".

Fixpoint forallb (p : ascii -> bool) (s : string) : bool :=
  match s with
  | EmptyString => true
  | String c s' => p c && forallb p s'
  end.

(** The rewriting loop of [canonicalMIMEHeaderKey]: the first letter and
    every letter after a hyphen in upper case, the others in lower case. *)
Fixpoint canonicalize (upper : bool) (s : string) : string :=
  match s with
  | EmptyString => EmptyString
  | String c s' =>
      let c' := if upper then strings.upperByte c else strings.lowerByte c in
      String c' (canonicalize (Ascii.eqb c' "-") s')
  end.

(** [textproto.CanonicalMIMEHeaderKey]: a key holding a space or a byte
    that is not a token character is returned unchanged. *)
Definition CanonicalMIMEHeaderKey (s : string) : string :=
  if forallb validHeaderFieldByte s then canonicalize true s else s.

(** [http.Header] and [textproto.MIMEHeader]: [map[string][]string]. *)
Abbreviation MIMEHeader := (gmap string (list string)).

(** [MIMEHeader.Get]: the first value of the canonical key, or [""]. *)
Definition Get (h : MIMEHeader) (key : string) : string :=
  match h !! CanonicalMIMEHeaderKey key with
  | Some (v :: _) => v
  | _ => ""
  end.

(** [MIMEHeader.Set]: [h[CanonicalMIMEHeaderKey(key)] = []string{value}]. *)
Definition Set_ (h : MIMEHeader) (key value : string) : MIMEHeader :=
  <[CanonicalMIMEHeaderKey key := [value]]> h.

End textproto.

(** ** Package [mime]: the media type of a [Content-Type] value *)
Module mime.

Definition tspecials : string := "()<>@,;:\/[]?=".

(** [isTokenChar]: a printable US-ASCII character that is not one of the
    [tspecials] (the string above and the double quote, code 34). *)
Definition isTokenChar (c : ascii) : bool :=
  ((32 <? N_of_ascii c) && (N_of_ascii c <? 127))%N
  && negb (strings.existsb (Ascii.eqb c) tspecials || (N_of_ascii c =? 34)%N).

(** [consumeToken]: the longest prefix of token characters and the rest. *)
Fixpoint consumeToken (v : string) : string * string :=
  match v with
  | EmptyString => (EmptyString, EmptyString)
  | String c v' =>
      if isTokenChar c
      then let '(tok, rest) := consumeToken v' in (String c tok, rest)
      else (EmptyString, v)
  end.

(** [checkMediaTypeDisposition] *)
Definition checkMediaTypeDisposition (s : string) : option error :=
  let '(typ, rest) := consumeToken s in
  if String.eqb typ "" then Some (errors_New "mime: no media type")
  else if String.eqb rest "" then None
  else match rest with
       | String "/" rest1 =>
           let '(subtype, rest2) := consumeToken rest1 in
           if String.eqb subtype "" then
             Some (errors_New "mime: expected token after slash")
           else if String.eqb rest2 "" then None
           else Some (errors_New "mime: unexpected content after media subtype")
       | _ => Some (errors_New "mime: expected slash after first token")
       end.

Section ParseMediaType.
(** Unicode fall-backs of [strings.ToLower] and [strings.TrimSpace]. *)
Variable unicode_ToLower unicode_TrimSpace unicode_TrimRightSpace : string -> string.
(** The parameter loop of [mime.ParseMediaType], run on the non-empty
    text that follows the media type: the parameter map, or
    [ErrInvalidMediaParameter] / a duplicate-parameter error. *)
Variable consumeMediaParams : string -> gmap string string + error.

(** [mime.ParseMediaType].  When the parameters are in error the media
    type returned with the error is [mediatype] or [""] depending on the
    error; callers in [net/http] test the error first. *)
Definition ParseMediaType (v : string)
  : string * option (gmap string string) * option error :=
  let base := strings.CutBefore ";" v in
  let mediatype :=
    strings.TrimSpace unicode_TrimSpace unicode_TrimRightSpace
      (strings.ToLower unicode_ToLower base) in
  match checkMediaTypeDisposition mediatype with
  | Some err => ("", None, Some err)
  | None =>
      let rest := strings.drop (String.length base) v in
      match (if String.eqb rest "" then inl ∅ else consumeMediaParams rest) with
      | inl params => (mediatype, Some params, None)
      | inr err => (mediatype, None, Some err)
      end
  end.
End ParseMediaType.

End mime.

(** ** Package [mime/multipart]: parsed forms *)
Module multipart.

(** [multipart.FileHeader], as far as the handler looks at it: the file name
    and MIME header sent by the client, the size, and the result of
    [file.Open()]: a reader over the content (held in memory or in a
    temporary file on disk), or the error of opening the temporary file. *)
Record FileHeader : Type := mkFileHeader {
  Filename : string;
  Header : textproto.MIMEHeader;
  Size : Z;
  Open : Reader + error
}.

(** [multipart.Form] *)
Record Form : Type := mkForm {
  Value : gmap string (list string);
  File : gmap string (list FileHeader)
}.

End multipart.

(** ** Package [net/http]: requests *)
Module http.

Definition MethodPost : string := "POST".
Definition StatusBadRequest : Z := 400.
Definition StatusInternalServerError : Z := 500.

(** [io.ReadCloser]: the stream and whether [Close] has been called. *)
Record ReadCloser : Type := mkReadCloser { rd : Reader; closed : bool }.

Definition Close (b : ReadCloser) : ReadCloser := mkReadCloser (rd b) true.

(** [ioutil.NopCloser(buf)] over the bytes held by a [bytes.Buffer]. *)
Definition NopCloser (buf : list byte) : ReadCloser :=
  mkReadCloser (bytes_NewReader buf) false.

(** The field [r.MultipartForm], a [*multipart.Form]: [nil], the sentinel
    [multipartByReader], or a parsed form. *)
Inductive MultipartFormPtr : Type :=
| nilForm
| multipartByReader
| parsedForm (f : multipart.Form).

(** Dereferencing the pointer; the sentinel [multipartByReader] points to a
    form with two empty maps. *)
Definition deref (p : MultipartFormPtr) : option multipart.Form :=
  match p with
  | nilForm => None
  | multipartByReader => Some (multipart.mkForm ∅ ∅)
  | parsedForm f => Some f
  end.

(** [http.Request], the fields the handler and the form parser touch.  The
    body of a server request is never [nil]. *)
Record Request : Type := mkRequest {
  Method : string;
  Header : textproto.MIMEHeader;
  Body : ReadCloser;
  ContentLength : Z;
  Form : option (gmap string (list string));
  PostForm : option (gmap string (list string));
  MultipartForm : MultipartFormPtr
}.

Definition set_Header (r : Request) (h : textproto.MIMEHeader) : Request :=
  mkRequest (Method r) h (Body r) (ContentLength r) (Form r) (PostForm r) (MultipartForm r).
Definition set_Body (r : Request) (b : ReadCloser) : Request :=
  mkRequest (Method r) (Header r) b (ContentLength r) (Form r) (PostForm r) (MultipartForm r).
Definition set_ContentLength (r : Request) (n : Z) : Request :=
  mkRequest (Method r) (Header r) (Body r) n (Form r) (PostForm r) (MultipartForm r).
Definition set_Form (r : Request) (f : option (gmap string (list string))) : Request :=
  mkRequest (Method r) (Header r) (Body r) (ContentLength r) f (PostForm r) (MultipartForm r).
Definition set_PostForm (r : Request) (f : option (gmap string (list string))) : Request :=
  mkRequest (Method r) (Header r) (Body r) (ContentLength r) (Form r) f (MultipartForm r).
Definition set_MultipartForm (r : Request) (m : MultipartFormPtr) : Request :=
  mkRequest (Method r) (Header r) (Body r) (ContentLength r) (Form r) (PostForm r) m.

(** What [r.ParseForm()] leaves behind: the two value maps (always non-nil
    afterwards), the body (read when it was URL-encoded) and the error. *)
Record ParseFormResult : Type := mkParseFormResult {
  pf_Form : gmap string (list string);
  pf_PostForm : gmap string (list string);
  pf_Body : ReadCloser;
  pf_err : option error
}.

(** The library code that is not transcribed: Unicode tables, the parsers of
    media-type parameters, URL-encoded bodies and multipart bodies, the
    removal of temporary files, the iteration order of [range] over a map
    and the escaping of JSON strings. *)
Class Runtime : Type := mkRuntime {
  unicode_ToLower : string -> string;
  unicode_TrimSpace : string -> string;
  unicode_TrimRightSpace : string -> string;
  consumeMediaParams : string -> gmap string string + error;
  (** [r.ParseForm()] *)
  ParseForm : Request -> ParseFormResult;
  (** [multipart.NewReader(body, boundary).ReadForm(maxMemory)]: the body
      after reading, and the form or the error. *)
  ReadForm : string -> ReadCloser -> Z -> ReadCloser * (multipart.Form + error);
  (** [form.RemoveAll()] *)
  RemoveAll : multipart.Form -> option error;
  (** the order in which [range] visits the entries of the two maps *)
  range_Value : gmap string (list string) -> list (string * list string);
  range_File : gmap string (list multipart.FileHeader)
               -> list (string * list multipart.FileHeader);
  (** [encoding/json]: a Go string as a quoted, escaped JSON string *)
  json_string : string -> string
}.

(** [range] visits every entry of a map exactly once. *)
Class RangeLaws (rt : Runtime) : Prop := mkRangeLaws {
  range_Value_perm : forall m, range_Value m ≡ₚ map_to_list m;
  range_File_perm : forall m, range_File m ≡ₚ map_to_list m
}.

Section ParseMultipartForm.
Context {rt : Runtime}.

Definition ParseMediaType : string -> string * option (gmap string string) * option error :=
  mime.ParseMediaType unicode_ToLower unicode_TrimSpace unicode_TrimRightSpace
    consumeMediaParams.

(** [r.multipartReader(false)]: the boundary of the multipart reader built
    over [r.Body], or the reason why the request is not a multipart form. *)
Definition multipartReader (r : Request) : string + error :=
  let v := textproto.Get (Header r) "Content-Type" in
  if String.eqb v "" then inr ErrNotMultipart
  else
    let '(d, params, err) := ParseMediaType v in
    match err, params with
    | None, Some params =>
        if negb (String.eqb d "multipart/form-data") then inr ErrNotMultipart
        else match params !! "boundary" with
             | None => inr ErrMissingBoundary
             | Some boundary => inl boundary
             end
    | _, _ => inr ErrNotMultipart
    end.

(** [r.Form[k] = append(r.Form[k], v...)] for every [k, v] of [f.Value]. *)
Definition appendValues (dst : option (gmap string (list string)))
    (src : gmap string (list string)) : option (gmap string (list string)) :=
  Some (union_with (fun a b => Some (a ++ b)) (default ∅ dst) src).

(** [r.ParseMultipartForm(maxMemory)]: the request as the call leaves it and
    the error returned.  An error of [ParseForm] does not stop the parsing of
    the body and is returned at the end (Go 1.17 and later; earlier releases
    return it at once).  A request whose media type is not
    [multipart/form-data] is refused with [ErrNotMultipart]. *)
Definition ParseMultipartForm (r : Request) (maxMemory : Z) : Request * option error :=
  match MultipartForm r with
  | multipartByReader => (r, Some ErrMultipartByReader)
  | _ =>
      let '(r1, parseFormErr) :=
        match Form r with
        | None =>
            let pf := ParseForm r in
            (set_Body (set_PostForm (set_Form r (Some (pf_Form pf)))
                                    (Some (pf_PostForm pf))) (pf_Body pf),
             pf_err pf)
        | Some _ => (r, None)
        end in
      match MultipartForm r1 with
      | nilForm =>
          match multipartReader r1 with
          | inr err => (r1, Some err)
          | inl boundary =>
              let '(body, res) := ReadForm boundary (Body r1) maxMemory in
              let r2 := set_Body r1 body in
              match res with
              | inr err => (r2, Some err)
              | inl f =>
                  let r3 := set_PostForm r2 (appendValues (PostForm r2) (multipart.Value f)) in
                  let r4 := set_Form r3 (appendValues (Form r3) (multipart.Value f)) in
                  (set_MultipartForm r4 (parsedForm f), parseFormErr)
              end
          end
      | _ => (r1, None)
      end
  end.

End ParseMultipartForm.
End http.

(** ** Package [encoding/json]: documents and their text *)
Module json.

(** The JSON documents the handler can emit. *)
#[local] Set Warnings "-register-all".
Inductive value : Type :=
| Null
| Str (s : string)
| Array (elems : list value)
| Object (members : list (string * value)).

Definition dquote : string := String "034"%char EmptyString.
Definition newline : string := String "010"%char EmptyString.

Section render.
Context {rt : http.Runtime}.

(** An object member: the key comes from a struct tag and is written between
    double quotes as it is. *)
Definition render_key (k : string) : string := dquote +:+ k +:+ dquote +:+ ":".

(** The compact text the encoder writes for a document. *)
Fixpoint render (v : value) : string :=
  match v with
  | Null => "null"
  | Str s => http.json_string s
  | Array elems =>
      "[" +:+
      (fix elements (l : list value) : string :=
         match l with
         | [] => ""
         | [x] => render x
         | x :: l' => render x +:+ "," +:+ elements l'
         end) elems
      +:+ "]"
  | Object members =>
      "{" +:+
      (fix fields (l : list (string * value)) : string :=
         match l with
         | [] => ""
         | [(k, x)] => render_key k +:+ render x
         | (k, x) :: l' => render_key k +:+ render x +:+ "," +:+ fields l'
         end) members
      +:+ "}"
  end.

End render.
End json.

(** * The handler (package [form2json], [handler.go]) *)

(** [type Handler struct] *)
Record Handler : Type := mkHandler {
  (** The maximum bytes of memory to use when decoding form payloads. *)
  MemoryLimit : Z
}.

(** [const defaultMemLimit = 1024 * 1024 * 2] *)
Definition defaultMemLimit : Z := 1024 * 1024 * 2.

(** [type part struct]; every field is tagged [omitempty]. *)
Record part : Type := mkPart {
  Name : string;         (* json:"name,omitempty" *)
  Type_ : string;        (* json:"type,omitempty" *)
  Value : string;        (* json:"value,omitempty" *)
  ContentType : string;  (* json:"content_type,omitempty" *)
  FileName : string      (* json:"file_name,omitempty" *)
}.

(** The zero value [part{}]. *)
Definition part_zero : part := mkPart "" "" "" "" "".

(** A Go slice of parts: [nil] or a backing sequence.  [append] to a slice
    always gives a non-nil slice. *)
Inductive slice : Type :=
| nil_slice
| mk_slice (elems : list part).

Definition append (s : slice) (p : part) : slice :=
  match s with
  | nil_slice => mk_slice [p]
  | mk_slice l => mk_slice (l ++ [p])
  end.

(** The elements of a slice, [nil] having none. *)
Definition elems_of (s : slice) : list part :=
  match s with
  | nil_slice => []
  | mk_slice l => l
  end.

(** [caddyhttp.Error(statusCode, err)], a [caddyhttp.HandlerError]. *)
Record HandlerError : Type := mkHandlerError { StatusCode : Z; Err : error }.

Definition caddyhttp_Error (statusCode : Z) (err : error) : HandlerError :=
  mkHandlerError statusCode err.

(** How a call of [ServeHTTP] ends, with the request as the call left it. *)
Inductive outcome : Type :=
| Next (r : http.Request)
    (* return next.ServeHTTP(w, r): the next handler runs on r *)
| Abort (r : http.Request) (e : HandlerError)
    (* return caddyhttp.Error(...): the next handler is not called *)
| Panic (r : http.Request).
    (* nil pointer dereference of r.MultipartForm *)

(** [func (h Handler) Provision(_ caddy.Context) error].  The receiver is
    passed by value: the body runs on its own copy of the handler, which is
    the first component below; the error returned is the second. *)
Definition Provision_body (h : Handler) : Handler * option error :=
  let h := if MemoryLimit h <=? 0 then mkHandler defaultMemLimit else h in
  (h, None).

(** A call of a method with a value receiver, [func (x T) m() R], seen from
    the caller: the body runs on a copy of the receiver, so the caller keeps
    the receiver it had and gets the result; the callee's copy is dropped. *)
Definition call_by_value {T R : Type} (body : T -> T * R) (receiver : T) : T * R :=
  (receiver, snd (body receiver)).

(** A call [h.Provision(ctx)]: the caller's handler after the call, and the
    error returned. *)
Definition Provision (h : Handler) : Handler * option error :=
  call_by_value Provision_body h.

(** How [encoding/json] marshals a [part]: the fields in their order of
    declaration under their tag names, a field holding the empty string being
    left out ([omitempty]). *)
Definition omitempty (key v : string) : list (string * json.value) :=
  if String.eqb v "" then [] else [(key, json.Str v)].

Definition marshal_part (p : part) : json.value :=
  json.Object (omitempty "name" (Name p) ++ omitempty "type" (Type_ p)
               ++ omitempty "value" (Value p)
               ++ omitempty "content_type" (ContentType p)
               ++ omitempty "file_name" (FileName p)).

(** How [encoding/json] marshals a [[]part]: [null] for the nil slice, an
    array otherwise. *)
Definition marshal (converted : slice) : json.value :=
  match converted with
  | nil_slice => json.Null
  | mk_slice l => json.Array (map marshal_part l)
  end.

(** [func encodeFileIntoMemory(name string, file *multipart.FileHeader)
    (part, error)] *)
Definition encodeFileIntoMemory (name : string) (file : multipart.FileHeader)
  : part * option error :=
  match multipart.Open file with
  | inr err => (part_zero, Some err)
  | inl f =>
      let b64enc := base64.NewEncoder in
      let '(b64enc, err) := base64.io_Copy b64enc f in
      match err with
      | Some err => (part_zero, Some err)
      | None =>
          let b64enc := base64.Close b64enc in
          (mkPart name "file/base64" (string_of_list_byte (base64.w b64enc))
                  (textproto.Get (multipart.Header file) "Content-Type")
                  (multipart.Filename file),
           None)
      end
  end.

(** The loop over the values of one field name. *)
Definition append_values (name : string) (values : list string) (converted : slice)
  : slice :=
  fold_left (fun acc v => append acc (mkPart name "field/text" v "" "")) values converted.

(** The loop over the files of one field name; the first error ends it. *)
Fixpoint append_files (name : string) (files : list multipart.FileHeader)
    (converted : slice) : slice + error :=
  match files with
  | [] => inl converted
  | file :: files' =>
      let '(p, err) := encodeFileIntoMemory name file in
      match err with
      | Some err => inr err
      | None => append_files name files' (append converted p)
      end
  end.

(** [for name, values := range r.MultipartForm.Value] *)
Definition convert_values (entries : list (string * list string)) (converted : slice)
  : slice :=
  fold_left (fun acc nv => append_values (fst nv) (snd nv) acc) entries converted.

(** [for name, files := range r.MultipartForm.File] *)
Fixpoint convert_files (entries : list (string * list multipart.FileHeader))
    (converted : slice) : slice + error :=
  match entries with
  | [] => inl converted
  | (name, files) :: entries' =>
      match append_files name files converted with
      | inr err => inr err
      | inl converted => convert_files entries' converted
      end
  end.

Section ServeHTTP.
Context {rt : http.Runtime}.

(** [json.NewEncoder(buf).Encode(converted)]: the text of the document
    followed by a newline.  The buffer comes from [bufPool] and is reset
    before use, so it holds nothing else; it goes back to the pool only when
    [ServeHTTP] returns, after the next handler has run.  Marshalling strings
    cannot fail. *)
Definition Encode (converted : slice) : list byte + error :=
  inl (list_byte_of_string (json.render (marshal converted) +:+ json.newline)).

(** [strconv.Itoa] *)
Definition Itoa (n : Z) : string := pretty n.

(** [func (h Handler) ServeHTTP(w http.ResponseWriter, r *http.Request,
    next caddyhttp.Handler) error] *)
Definition ServeHTTP (h : Handler) (r : http.Request) : outcome :=
  (* passthru any requests we aren't equipped to handle (POST form data) *)
  if negb (String.eqb (http.Method r) http.MethodPost) then Next r
  else
    let ct := textproto.Get (http.Header r) "Content-Type" in
    if negb (strings.HasPrefix ct "application/x-www-form-urlencoded")
       && negb (strings.HasPrefix ct "multipart/form-data") then Next r
    else
      (* read and parse the form payload, then close request body *)
      let '(r, err) := http.ParseMultipartForm r (MemoryLimit h) in
      match err with
      | Some err => Abort r (caddyhttp_Error http.StatusBadRequest err)
      | None =>
          let r := http.set_Body r (http.Close (http.Body r)) in
          match http.deref (http.MultipartForm r) with
          | None => Panic r
          | Some form =>
              (* assemble form data into structure for JSON *)
              let converted := nil_slice in
              let converted :=
                convert_values (http.range_Value (multipart.Value form)) converted in
              match convert_files (http.range_File (multipart.File form)) converted with
              | inr err => Abort r (caddyhttp_Error http.StatusInternalServerError err)
              | inl converted =>
                  (* delete temporary form data files *)
                  match http.RemoveAll form with
                  | Some err =>
                      Abort r (caddyhttp_Error http.StatusInternalServerError err)
                  | None =>
                      (* encode converted payload into our JSON buffer *)
                      match Encode converted with
                      | inr err =>
                          Abort r (caddyhttp_Error http.StatusInternalServerError err)
                      | inl buf =>
                          (* replace original request body with our buffer *)
                          let r := http.set_Body r (http.NopCloser buf) in
                          (* adjust request headers (and content length separately!) *)
                          let r := http.set_Header r
                            (textproto.Set_ (http.Header r) "Content-Type" "application/json") in
                          let r := http.set_Header r
                            (textproto.Set_ (http.Header r) "Content-Type-Class"
                               "caddy_post_json_v1") in
                          let r := http.set_Header r
                            (textproto.Set_ (http.Header r) "Content-Length"
                               (Itoa (Z.of_nat (length buf)))) in
                          let r := http.set_ContentLength r (Z.of_nat (length buf)) in
                          Next r
                      end
                  end
              end
          end
      end.

(** The eligibility gate as the specification words it: the method is POST
    and the content type begins with one of the two form media types. *)
Definition eligible (r : http.Request) : bool :=
  String.eqb (http.Method r) "POST"
  && (String.prefix "application/x-www-form-urlencoded"
        (textproto.Get (http.Header r) "Content-Type")
      || String.prefix "multipart/form-data"
           (textproto.Get (http.Header r) "Content-Type")).

End ServeHTTP.

(** * Notions used to state the properties *)

(** [part{Name: name, Type: "field/text", Value: v}] *)
Definition text_part (name v : string) : part := mkPart name "field/text" v "" "".

(** The content of an uploaded file: what its opened handle yields when read
    to the end, or the error met on the way. *)
Definition file_bytes (file : multipart.FileHeader) : list byte + error :=
  match multipart.Open file with
  | inr err => inr err
  | inl f => ReadAll f
  end.

(** The part expected for an uploaded file whose content is [data]. *)
Definition file_part (name : string) (file : multipart.FileHeader) (data : list byte)
  : part :=
  mkPart name "file/base64" (base64.EncodeToString data)
         (textproto.Get (multipart.Header file) "Content-Type")
         (multipart.Filename file).

(** The slice holding the parts [l]: the nil slice when there is none. *)
Definition slice_of_list (l : list part) : slice :=
  match l with
  | [] => nil_slice
  | _ => mk_slice l
  end.

(** The entries of a map of lists, one pair per element, in the order given. *)
Definition flatten {A : Type} (entries : list (string * list A)) : list (string * A) :=
  flat_map (fun nf => map (pair (fst nf)) (snd nf)) entries.

Definition text_parts (fields : list (string * string)) : list part :=
  map (fun nv => text_part (fst nv) (snd nv)) fields.

(** The parts of a sequence of uploaded files, or the error of the first
    file that cannot be read. *)
Fixpoint file_parts (files : list (string * multipart.FileHeader)) : list part + error :=
  match files with
  | [] => inl []
  | (name, file) :: files' =>
      match file_bytes file with
      | inr err => inr err
      | inl data =>
          match file_parts files' with
          | inl ps => inl (file_part name file data :: ps)
          | inr err => inr err
          end
      end
  end.

(** The members of the JSON object of a part, before [omitempty]. *)
Definition part_fields (p : part) : list (string * string) :=
  [("name", Name p); ("type", Type_ p); ("value", Value p);
   ("content_type", ContentType p); ("file_name", FileName p)].

(** The keys of a JSON object ([[]] for any other document). *)
Definition member_keys (v : json.value) : list string :=
  match v with
  | json.Object members => map fst members
  | _ => []
  end.

Section conversion.
Context {rt : http.Runtime}.

(** Fields and files of a parsed form in the order the two loops visit them. *)
Definition fields_in_order (form : multipart.Form) : list (string * string) :=
  flatten (http.range_Value (multipart.Value form)).
Definition files_in_order (form : multipart.Form)
  : list (string * multipart.FileHeader) :=
  flatten (http.range_File (multipart.File form)).

(** The parts built from a parsed form: the text parts, then the file parts. *)
Definition converted_parts (form : multipart.Form) : list part + error :=
  match file_parts (files_in_order form) with
  | inl fs => inl (text_parts (fields_in_order form) ++ fs)
  | inr err => inr err
  end.

(** The bytes of the new body for the parts [ps]. *)
Definition json_body (ps : list part) : list byte :=
  list_byte_of_string (json.render (marshal (slice_of_list ps)) +:+ json.newline).

(** The request handed to the next handler once the body [buf] is in place:
    [r1] is the request as the form parser left it. *)
Definition converted_request (r1 : http.Request) (buf : list byte) : http.Request :=
  http.mkRequest (http.Method r1)
    (<["Content-Length" := [Itoa (Z.of_nat (length buf))]]>
       (<["Content-Type-Class" := ["caddy_post_json_v1"]]>
          (<["Content-Type" := ["application/json"]]> (http.Header r1))))
    (http.NopCloser buf) (Z.of_nat (length buf))
    (http.Form r1) (http.PostForm r1) (http.MultipartForm r1).

(** The request left behind when the conversion is given up after parsing:
    the parsed request with its body closed. *)
Definition abandoned_request (r1 : http.Request) : http.Request :=
  http.set_Body r1 (http.Close (http.Body r1)).

(** What [ServeHTTP] does with an eligible request, in terms of the notions
    above. *)
Definition conversion (h : Handler) (r : http.Request) : outcome :=
  let '(r1, err) := http.ParseMultipartForm r (MemoryLimit h) in
  match err with
  | Some err => Abort r1 (mkHandlerError 400 err)
  | None =>
      match http.deref (http.MultipartForm r1) with
      | None => Panic (abandoned_request r1)
      | Some form =>
          match converted_parts form with
          | inr err => Abort (abandoned_request r1) (mkHandlerError 500 err)
          | inl ps =>
              match http.RemoveAll form with
              | Some err => Abort (abandoned_request r1) (mkHandlerError 500 err)
              | None => Next (converted_request r1 (json_body ps))
              end
          end
      end
  end.

End conversion.

(** The files uploaded with a form, whatever the order. *)
Definition uploaded_files (form : multipart.Form)
  : list (string * multipart.FileHeader) :=
  flatten (map_to_list (multipart.File form)).

(** ** The buffer pool *)

Section pooled.
Context {rt : http.Runtime}.

(** [bufPool.New]: [new(bytes.Buffer)], a buffer holding nothing. *)
Definition bufPool_New : list byte := [].

(** [buf.Reset()] *)
Definition Reset (buf : list byte) : list byte := [].

(** [json.NewEncoder(buf).Encode(converted)] on a buffer in any state: the
    text of the document and a newline are appended to what it holds. *)
Definition Encode_into (buf : list byte) (converted : slice) : list byte * option error :=
  (buf ++ list_byte_of_string (json.render (marshal converted) +:+ json.newline), None).

(** [ServeHTTP] with the pool written out.  [got] is what the buffer
    returned by [bufPool.Get()] holds: [bufPool_New] when the pool hands out
    a new buffer, the bytes left by an earlier request otherwise.  The second
    component is the buffer that the deferred [bufPool.Put(buf)] gives back
    when the call returns ([None] when the call returns before
    [bufPool.Get()]); the body of the request is a reader over that same
    buffer. *)
Definition ServeHTTP_pooled (got : list byte) (h : Handler) (r : http.Request)
  : outcome * option (list byte) :=
  if negb (String.eqb (http.Method r) http.MethodPost) then (Next r, None)
  else
    let ct := textproto.Get (http.Header r) "Content-Type" in
    if negb (strings.HasPrefix ct "application/x-www-form-urlencoded")
       && negb (strings.HasPrefix ct "multipart/form-data") then (Next r, None)
    else
      let '(r, err) := http.ParseMultipartForm r (MemoryLimit h) in
      match err with
      | Some err => (Abort r (caddyhttp_Error http.StatusBadRequest err), None)
      | None =>
          let r := http.set_Body r (http.Close (http.Body r)) in
          match http.deref (http.MultipartForm r) with
          | None => (Panic r, None)
          | Some form =>
              let converted := nil_slice in
              let converted :=
                convert_values (http.range_Value (multipart.Value form)) converted in
              match convert_files (http.range_File (multipart.File form)) converted with
              | inr err =>
                  (Abort r (caddyhttp_Error http.StatusInternalServerError err), None)
              | inl converted =>
                  match http.RemoveAll form with
                  | Some err =>
                      (Abort r (caddyhttp_Error http.StatusInternalServerError err), None)
                  | None =>
                      (* buf := bufPool.Get(); buf.Reset(); defer bufPool.Put(buf) *)
                      let buf := got in
                      let buf := Reset buf in
                      let '(buf, err) := Encode_into buf converted in
                      match err with
                      | Some err =>
                          (Abort r (caddyhttp_Error http.StatusInternalServerError err),
                           Some buf)
                      | None =>
                          let r := http.set_Body r (http.NopCloser buf) in
                          let r := http.set_Header r
                            (textproto.Set_ (http.Header r) "Content-Type" "application/json") in
                          let r := http.set_Header r
                            (textproto.Set_ (http.Header r) "Content-Type-Class"
                               "caddy_post_json_v1") in
                          let r := http.set_Header r
                            (textproto.Set_ (http.Header r) "Content-Length"
                               (Itoa (Z.of_nat (length buf)))) in
                          let r := http.set_ContentLength r (Z.of_nat (length buf)) in
                          (Next r, Some buf)
                      end
                  end
              end
          end
      end.

End pooled.

(** The fields submitted with a form, whatever the order. *)
Definition submitted_fields (form : multipart.Form) : list (string * string) :=
  flatten (map_to_list (multipart.Value form)).

(** The part a readable file gives (the zero part for an unreadable one). *)
Definition expected_file_part (nf : string * multipart.FileHeader) : part :=
  match file_bytes nf.2 with
  | inl data => file_part nf.1 nf.2 data
  | inr _ => part_zero
  end.


(** * A concrete runtime and sample requests *)
Module demo.

Definition bytes (s : string) : list byte := list_byte_of_string s.

Definition body_of (s : string) : http.ReadCloser :=
  http.mkReadCloser (bytes_NewReader (bytes s)) false.

(** An upload held in memory and read in two chunks. *)
Definition avatar : multipart.FileHeader :=
  multipart.mkFileHeader "avatar.png" {[ "Content-Type" := ["image/png"] ]} 7
    (inl (Data (bytes "PNG") (Data (bytes "DATA") EOF))).

Definition disk_error : error := errors_New "read /tmp/multipart-1: input/output error".
Definition remove_error : error := errors_New "remove /tmp/multipart-2: permission denied".
Definition parse_error : error := errors_New "multipart: NextPart: EOF".

(** An upload spilled to disk whose temporary file fails while being read. *)
Definition broken : multipart.FileHeader :=
  multipart.mkFileHeader "big.bin" ∅ 4096 (inl (Data (bytes "PNG") (Fail disk_error))).

Definition form_alice : multipart.Form :=
  multipart.mkForm {[ "name" := ["Alice"] ]} {[ "avatar" := [avatar] ]}.
Definition form_dup : multipart.Form :=
  multipart.mkForm {[ "a" := ["1"; "2"] ]} ∅.
Definition form_blank : multipart.Form :=
  multipart.mkForm {[ "note" := [""] ]} ∅.
Definition form_empty : multipart.Form := multipart.mkForm ∅ ∅.
Definition form_broken : multipart.Form :=
  multipart.mkForm ∅ {[ "upload" := [broken] ]}.
Definition form_stuck : multipart.Form :=
  multipart.mkForm ∅ {[ "stuck" := [avatar] ]}.

(** A stand-in for the multipart parser: the body text names the form. *)
Definition read_form (boundary : string) (body : http.ReadCloser) (maxMemory : Z)
  : http.ReadCloser * (multipart.Form + error) :=
  let drained := http.mkReadCloser EOF (http.closed body) in
  match ReadAll (http.rd body) with
  | inr err => (drained, inr err)
  | inl b =>
      let s := string_of_list_byte b in
      (drained,
       if String.eqb s "alice" then inl form_alice
       else if String.eqb s "dup" then inl form_dup
       else if String.eqb s "blank" then inl form_blank
       else if String.eqb s "empty" then inl form_empty
       else if String.eqb s "broken" then inl form_broken
       else if String.eqb s "stuck" then inl form_stuck
       else if String.eqb s "limit" then inr (errors_New (pretty maxMemory))
       else inr parse_error)
  end.

Definition runtime : http.Runtime := {|
  http.unicode_ToLower := id;
  http.unicode_TrimSpace := id;
  http.unicode_TrimRightSpace := id;
  http.consumeMediaParams := fun rest =>
    if String.eqb rest "; boundary=x" then inl {[ "boundary" := "x" ]}
    else inr (errors_New "mime: invalid media parameter");
  http.ParseForm := fun r => http.mkParseFormResult ∅ ∅ (http.Body r) None;
  http.ReadForm := read_form;
  http.RemoveAll := fun form =>
    match multipart.File form !! "stuck" with
    | Some _ => Some remove_error
    | None => None
    end;
  http.range_Value := map_to_list;
  http.range_File := map_to_list;
  http.json_string := fun s => json.dquote +:+ s +:+ json.dquote
|}.

(** A fresh server request. *)
Definition request (method ct body : string) : http.Request :=
  http.mkRequest method {[ "Content-Type" := [ct] ]} (body_of body)
    (Z.of_nat (String.length body)) None None http.nilForm.

Definition post_multipart (body : string) : http.Request :=
  request "POST" "multipart/form-data; boundary=x" body.

(** The request of the scenario: URL-encoded body [a=1&a=2]. *)
Definition post_urlencoded : http.Request :=
  request "POST" "application/x-www-form-urlencoded" "a=1&a=2".

(** The request a successful multipart parse leaves behind. *)
Definition parsed (body : string) (form : multipart.Form) : http.Request :=
  http.mkRequest "POST" {[ "Content-Type" := ["multipart/form-data; boundary=x"] ]}
    (http.mkReadCloser EOF false) (Z.of_nat (String.length body))
    (http.appendValues (Some ∅) (multipart.Value form))
    (http.appendValues (Some ∅) (multipart.Value form))
    (http.parsedForm form).

(** The parts and the request expected for the body [alice]. *)
Definition alice_parts : list part :=
  [text_part "name" "Alice"; file_part "avatar" avatar (bytes "PNGDATA")].

Definition converted (body : string) (form : multipart.Form) (ps : list part)
  : http.Request :=
  converted_request (parsed body form) (json_body (rt := runtime) ps).

(** The same upload held in memory: one chunk. *)
Definition avatar_in_memory : multipart.FileHeader :=
  multipart.mkFileHeader "avatar.png" {[ "Content-Type" := ["image/png"] ]} 7
    (inl (bytes_NewReader (bytes "PNGDATA"))).

(** An upload without content. *)
Definition empty_file : multipart.FileHeader :=
  multipart.mkFileHeader "empty.txt" {[ "Content-Type" := ["text/plain"] ]} 0 (inl EOF).

Definition form_two : multipart.Form :=
  multipart.mkForm {[ "a" := ["1"; "2"]; "b" := ["3"] ]}
    {[ "avatar" := [avatar]; "doc" := [empty_file] ]}.

(** The sample runtime with the opposite iteration order over maps. *)
Definition runtime_rev : http.Runtime := {|
  http.unicode_ToLower := id;
  http.unicode_TrimSpace := id;
  http.unicode_TrimRightSpace := id;
  http.consumeMediaParams := http.consumeMediaParams (Runtime := runtime);
  http.ParseForm := http.ParseForm (Runtime := runtime);
  http.ReadForm := read_form;
  http.RemoveAll := http.RemoveAll (Runtime := runtime);
  http.range_Value := fun m => reverse (map_to_list m);
  http.range_File := fun m => reverse (map_to_list m);
  http.json_string := http.json_string (Runtime := runtime)
|}.

(** A request whose form an earlier handler has parsed already. *)
Definition preparsed (form : multipart.Form) : http.Request :=
  http.mkRequest "POST"
    {[ "Content-Type" := ["multipart/form-data; boundary=x"]; "X-Trace" := ["t1"] ]}
    (body_of "unread") 6 (Some ∅) (Some ∅) (http.parsedForm form).

End demo.

(** * Properties of the base64 encoder *)
Module base64_facts.
Import base64.

(** Linear arithmetic with division and remainder by constants. *)
Ltac lia_mod := zify; Z.div_mod_to_equations; lia.

Lemma Z_of_byte_range (b : byte) : 0 <= Z_of_byte b < 256.
Proof.
  unfold Z_of_byte. pose proof (Byte.to_N_bounded b). lia.
Qed.

Lemma land_255 (x : Z) : Z.land x 255 = x mod 256.
Proof. change 255 with (Z.ones 8). rewrite Z.land_ones by lia. reflexivity. Qed.

Lemma land_63 (x : Z) : Z.land x 63 = x mod 64.
Proof. change 63 with (Z.ones 6). rewrite Z.land_ones by lia. reflexivity. Qed.

Lemma byte_of_Z_mod (x : Z) (b : byte) : x mod 256 = Z_of_byte b -> byte_of_Z x = b.
Proof.
  intros Hx. unfold byte_of_Z. rewrite land_255, Hx. unfold Z_of_byte.
  rewrite N2Z.id, Byte.of_to_N. reflexivity.
Qed.

(** Bitwise or of two numbers with no common bit is their sum. *)
Lemma lor_disjoint (x y k : Z) :
  0 <= k -> x mod 2 ^ k = 0 -> 0 <= y < 2 ^ k -> Z.lor x y = x + y.
Proof.
  intros Hk Hx Hy.
  assert (Hland : Z.land x y = 0).
  { apply Z.bits_inj'. intros n Hn. rewrite Z.land_spec, Z.bits_0.
    destruct (Z.lt_ge_cases n k) as [Hlt | Hge].
    - replace x with (x / 2 ^ k * 2 ^ k).
      + rewrite Z.mul_pow2_bits_low by lia. reflexivity.
      + pose proof (Z.div_mod x (2 ^ k)). lia.
    - replace (Z.testbit y n) with false; [apply andb_false_r |].
      symmetry. destruct (Z.eq_dec y 0) as [-> | Hy0]; [apply Z.bits_0 |].
      apply Z.bits_above_log2; [lia |].
      apply Z.log2_lt_pow2; [lia |].
      apply Z.lt_le_trans with (2 ^ k); [lia |].
      apply Z.pow_le_mono_r; lia. }
  pose proof (Z.add_lor_land x y). lia.
Qed.

Lemma shiftl_mul (x k : Z) : 0 <= k -> Z.shiftl x k = x * 2 ^ k.
Proof. intros. apply Z.shiftl_mul_pow2; lia. Qed.

Lemma sextet_div (val k : Z) : 0 <= k -> sextet val k = (val / 2 ^ k) mod 64.
Proof. intros. unfold sextet. rewrite land_63, Z.shiftr_div_pow2 by lia. reflexivity. Qed.

(** The 24-bit group built from three bytes. *)
Lemma group3_val (a b c : byte) :
  Z.lor (Z.lor (Z.shiftl (Z_of_byte a) 16) (Z.shiftl (Z_of_byte b) 8)) (Z_of_byte c)
  = Z_of_byte a * 65536 + Z_of_byte b * 256 + Z_of_byte c.
Proof.
  pose proof (Z_of_byte_range a). pose proof (Z_of_byte_range b).
  pose proof (Z_of_byte_range c).
  rewrite !shiftl_mul by lia.
  rewrite (lor_disjoint _ (Z_of_byte b * 2 ^ 8) 16); [| lia | | ].
  - rewrite (lor_disjoint _ (Z_of_byte c) 8); [| lia | | ].
    + change (2 ^ 16) with 65536. change (2 ^ 8) with 256. lia.
    + change (2 ^ 16) with 65536. change (2 ^ 8) with 256.
      Z.div_mod_to_equations. lia.
    + change (2 ^ 8) with 256. lia.
  - change (2 ^ 16) with 65536. Z.div_mod_to_equations. lia.
  - change (2 ^ 16) with 65536. change (2 ^ 8) with 256. lia.
Qed.

Lemma group4_val (s1 s2 s3 s4 : Z) :
  0 <= s1 < 64 -> 0 <= s2 < 64 -> 0 <= s3 < 64 -> 0 <= s4 < 64 ->
  Z.lor (Z.lor (Z.lor (Z.shiftl s1 18) (Z.shiftl s2 12)) (Z.shiftl s3 6)) s4
  = s1 * 262144 + s2 * 4096 + s3 * 64 + s4.
Proof.
  intros H1 H2 H3 H4.
  rewrite !shiftl_mul by lia.
  change (2 ^ 18) with 262144. change (2 ^ 12) with 4096. change (2 ^ 6) with 64.
  rewrite (lor_disjoint (s1 * 262144) (s2 * 4096) 18); [| lia | | ].
  - rewrite (lor_disjoint _ (s3 * 64) 12); [| lia | | ].
    + rewrite (lor_disjoint _ s4 6); [| lia | | ].
      * lia.
      * change (2 ^ 6) with 64. Z.div_mod_to_equations. lia.
      * change (2 ^ 6) with 64. lia.
    + change (2 ^ 12) with 4096. Z.div_mod_to_equations. lia.
    + change (2 ^ 12) with 4096. lia.
  - change (2 ^ 18) with 262144. Z.div_mod_to_equations. lia.
  - change (2 ^ 18) with 262144. lia.
Qed.


Lemma alphabet_check : forallb alphabet_ok (map Z.of_nat (seq 0 64)) = true.
Proof. vm_compute. reflexivity. Qed.

Lemma alphabet_ok_true (i : Z) : 0 <= i < 64 -> alphabet_ok i = true.
Proof.
  intros Hi. pose proof alphabet_check as Hall.
  rewrite forallb_forall in Hall. apply Hall.
  replace i with (Z.of_nat (Z.to_nat i)) by lia.
  apply in_map, in_seq. lia.
Qed.

Lemma decodeMap_encode (i : Z) : 0 <= i < 64 -> decodeMap (encode i) = i.
Proof.
  intros Hi. pose proof (alphabet_ok_true i Hi) as H. unfold alphabet_ok in H.
  rewrite !andb_true_iff in H. lia.
Qed.

Lemma encode_not_pad (i : Z) : 0 <= i < 64 -> Byte.eqb (encode i) padChar = false.
Proof.
  intros Hi. pose proof (alphabet_ok_true i Hi) as H. unfold alphabet_ok in H.
  rewrite !andb_true_iff, !negb_true_iff in H. tauto.
Qed.

Lemma valid_encode (i : Z) : 0 <= i < 64 -> valid (encode i) = true.
Proof.
  intros Hi. unfold valid. rewrite decodeMap_encode by exact Hi.
  apply negb_true_iff, Z.eqb_neq. lia.
Qed.

Lemma sextet_range (val k : Z) : 0 <= sextet val k < 64.
Proof. unfold sextet. rewrite land_63. apply Z.mod_pos_bound. lia. Qed.

Lemma Encode_cons3 (a b c : byte) (rest : list byte) :
  Encode (a :: b :: c :: rest) =
  let val := Z.lor (Z.lor (Z.shiftl (Z_of_byte a) 16) (Z.shiftl (Z_of_byte b) 8))
                   (Z_of_byte c) in
  encode (sextet val 18) :: encode (sextet val 12)
    :: encode (sextet val 6) :: encode (sextet val 0) :: Encode rest.
Proof. reflexivity. Qed.

Lemma list_ind3 {A : Type} (P : list A -> Prop) :
  P [] -> (forall a, P [a]) -> (forall a b, P [a; b]) ->
  (forall a b c l, P l -> P (a :: b :: c :: l)) ->
  forall l, P l.
Proof.
  intros H0 H1 H2 H3 l.
  assert (H : P l /\ (forall a, P (a :: l)) /\ (forall a b, P (a :: b :: l))).
  { induction l as [| x l [IH0 [IH1 IH2]]].
    - auto.
    - split; [apply IH1 |]. split; [intros a; apply IH2 |].
      intros a b. apply H3. exact IH0. }
  tauto.
Qed.

Lemma Encode_base64_chars (src : list byte) : Forall (fun c => base64_char c = true) (Encode src).
Proof.
  assert (Henc : forall v k, base64_char (encode (sextet v k)) = true).
  { intros v k. unfold base64_char. rewrite valid_encode by apply sextet_range. reflexivity. }
  assert (Hpad : base64_char padChar = true) by reflexivity.
  induction src as [| a | a b | a b c l IH] using list_ind3.
  - constructor.
  - cbn [Encode]. repeat constructor; auto.
  - cbn [Encode]. repeat constructor; auto.
  - rewrite Encode_cons3. cbv zeta. repeat constructor; auto.
Qed.

Lemma Encode_nil_inv (src : list byte) : Encode src = [] -> src = [].
Proof. destruct src as [| a [| b [| c l]]]; [reflexivity | discriminate ..]. Qed.

Lemma Encode_length (src : list byte) :
  length (Encode src) = (4 * ((length src + 2) / 3))%nat.
Proof.
  induction src as [| a | a b | a b c l IH] using list_ind3; try reflexivity.
  rewrite Encode_cons3. cbv zeta. cbn [length]. rewrite IH.
  replace (S (S (S (length l))) + 2)%nat with ((length l + 2) + 1 * 3)%nat by lia.
  rewrite Nat.div_add by lia. lia.
Qed.

(** Decoding the four characters of a full group gives its three bytes. *)
Lemma group_bytes (a b c : byte) :
  let val := Z.lor (Z.lor (Z.shiftl (Z_of_byte a) 16) (Z.shiftl (Z_of_byte b) 8))
                   (Z_of_byte c) in
  let g := group (encode (sextet val 18)) (encode (sextet val 12))
                 (encode (sextet val 6)) (encode (sextet val 0)) in
  byte_of_Z (Z.shiftr g 16) = a /\ byte_of_Z (Z.shiftr g 8) = b /\ byte_of_Z g = c.
Proof.
  intros val g. subst g. unfold group.
  rewrite !decodeMap_encode by apply sextet_range.
  rewrite group4_val by apply sextet_range.
  rewrite !sextet_div by lia. subst val. rewrite group3_val.
  pose proof (Z_of_byte_range a). pose proof (Z_of_byte_range b).
  pose proof (Z_of_byte_range c).
  rewrite !Z.shiftr_div_pow2 by lia.
  change (2 ^ 18) with 262144. change (2 ^ 12) with 4096. change (2 ^ 6) with 64.
  change (2 ^ 0) with 1. change (2 ^ 16) with 65536. change (2 ^ 8) with 256.
  repeat split; apply byte_of_Z_mod; Z.div_mod_to_equations; lia.
Qed.


Lemma group2_val (a b : byte) :
  Z.lor (Z.shiftl (Z_of_byte a) 16) (Z.shiftl (Z_of_byte b) 8)
  = Z_of_byte a * 65536 + Z_of_byte b * 256.
Proof.
  pose proof (Z_of_byte_range a). pose proof (Z_of_byte_range b).
  rewrite !shiftl_mul by lia.
  change (2 ^ 16) with 65536. change (2 ^ 8) with 256.
  rewrite (lor_disjoint _ _ 16); [lia | lia | | ].
  - change (2 ^ 16) with 65536. Z.div_mod_to_equations. lia.
  - change (2 ^ 16) with 65536. lia.
Qed.

Lemma decodeMap_A : decodeMap "A"%byte = 0.
Proof. reflexivity. Qed.

(** A final group of two bytes. *)
Lemma group_bytes2 (a b : byte) :
  let val := Z.lor (Z.shiftl (Z_of_byte a) 16) (Z.shiftl (Z_of_byte b) 8) in
  let g := group (encode (sextet val 18)) (encode (sextet val 12))
                 (encode (sextet val 6)) "A"%byte in
  byte_of_Z (Z.shiftr g 16) = a /\ byte_of_Z (Z.shiftr g 8) = b.
Proof.
  intros val g. subst g. unfold group. rewrite decodeMap_A.
  rewrite !decodeMap_encode by apply sextet_range.
  rewrite group4_val by (try apply sextet_range; lia).
  rewrite !sextet_div by lia. subst val. rewrite group2_val.
  pose proof (Z_of_byte_range a). pose proof (Z_of_byte_range b).
  rewrite !Z.shiftr_div_pow2 by lia.
  change (2 ^ 18) with 262144. change (2 ^ 12) with 4096. change (2 ^ 6) with 64.
  change (2 ^ 16) with 65536. change (2 ^ 8) with 256.
  split; apply byte_of_Z_mod; Z.div_mod_to_equations; lia.
Qed.

(** A final group of one byte. *)
Lemma group_bytes1 (a : byte) :
  let val := Z.shiftl (Z_of_byte a) 16 in
  let g := group (encode (sextet val 18)) (encode (sextet val 12)) "A"%byte "A"%byte in
  byte_of_Z (Z.shiftr g 16) = a.
Proof.
  intros val g. subst g. unfold group. rewrite decodeMap_A.
  rewrite !decodeMap_encode by apply sextet_range.
  rewrite group4_val by (try apply sextet_range; lia).
  rewrite !sextet_div by lia. subst val.
  pose proof (Z_of_byte_range a).
  rewrite shiftl_mul by lia. rewrite !Z.shiftr_div_pow2 by lia.
  change (2 ^ 18) with 262144. change (2 ^ 12) with 4096.
  change (2 ^ 16) with 65536.
  apply byte_of_Z_mod; Z.div_mod_to_equations; lia.
Qed.

Lemma Decode_group_last (c1 c2 c3 c4 : byte) :
  Decode [c1; c2; c3; c4] =
  if valid c1 && valid c2 then
    if Byte.eqb c4 padChar then
      if Byte.eqb c3 padChar then
        Some [byte_of_Z (Z.shiftr (group c1 c2 "A"%byte "A"%byte) 16)]
      else if valid c3 then
        Some [byte_of_Z (Z.shiftr (group c1 c2 c3 "A"%byte) 16);
              byte_of_Z (Z.shiftr (group c1 c2 c3 "A"%byte) 8)]
      else None
    else if valid c3 && valid c4 then
      Some [byte_of_Z (Z.shiftr (group c1 c2 c3 c4) 16);
            byte_of_Z (Z.shiftr (group c1 c2 c3 c4) 8); byte_of_Z (group c1 c2 c3 c4)]
    else None
  else None.
Proof. reflexivity. Qed.

Lemma Decode_group_more (c1 c2 c3 c4 x : byte) (rest : list byte) :
  Decode (c1 :: c2 :: c3 :: c4 :: x :: rest) =
  if valid c1 && valid c2 then
    if valid c3 && valid c4 then
      match Decode (x :: rest) with
      | Some tl =>
          Some (byte_of_Z (Z.shiftr (group c1 c2 c3 c4) 16)
                  :: byte_of_Z (Z.shiftr (group c1 c2 c3 c4) 8)
                  :: byte_of_Z (group c1 c2 c3 c4) :: tl)
      | None => None
      end
    else None
  else None.
Proof. reflexivity. Qed.

(** Round trip: decoding the encoding of a byte sequence gives it back. *)
Lemma Decode_Encode (src : list byte) : Decode (Encode src) = Some src.
Proof.
  induction src as [| a | a b | a b c l IH] using list_ind3.
  - reflexivity.
  - cbn [Encode]. rewrite Decode_group_last.
    rewrite !valid_encode by apply sextet_range. cbn [andb].
    change (Byte.eqb padChar padChar) with true. cbv iota.
    rewrite (group_bytes1 a). reflexivity.
  - cbn [Encode]. rewrite Decode_group_last.
    rewrite !valid_encode by apply sextet_range. cbn [andb].
    change (Byte.eqb padChar padChar) with true. cbv iota.
    rewrite encode_not_pad by apply sextet_range.
    destruct (group_bytes2 a b) as [-> ->]. reflexivity.
  - rewrite Encode_cons3. cbv zeta.
    destruct (group_bytes a b c) as (Ha & Hb & Hc). cbv zeta in Ha, Hb, Hc.
    destruct (Encode l) as [| x rest] eqn:HE.
    + apply Encode_nil_inv in HE. subst l.
      rewrite Decode_group_last.
      rewrite !valid_encode by apply sextet_range. cbn [andb].
      rewrite encode_not_pad by apply sextet_range.
      rewrite Ha, Hb, Hc. reflexivity.
    + rewrite Decode_group_more.
      rewrite !valid_encode by apply sextet_range. cbn [andb].
      rewrite IH, Ha, Hb, Hc. reflexivity.
Qed.


Lemma Encode_app (x y : list byte) :
  (length x mod 3 = 0)%nat -> Encode (x ++ y) = Encode x ++ Encode y.
Proof.
  induction x as [| a | a b | a b c l IH] using list_ind3; intros Hx.
  - reflexivity.
  - discriminate Hx.
  - discriminate Hx.
  - change ((a :: b :: c :: l) ++ y) with (a :: b :: c :: (l ++ y)).
    rewrite !Encode_cons3. cbv zeta. rewrite IH; [reflexivity |].
    cbn [length] in Hx. lia_mod.
Qed.

(** The chunked loop of [Write] encodes the longest prefix made of whole
    groups and leaves the rest. *)
Lemma interior_spec (fuel : nat) (out p : list byte) :
  (length p <= fuel)%nat ->
  interior fuel out p =
  (out ++ Encode (take (length p - length p mod 3) p),
   drop (length p - length p mod 3) p).
Proof.
  revert out p. induction fuel as [| fuel IH]; intros out p Hfuel.
  - destruct p; [| cbn [length] in Hfuel; lia].
    cbn. rewrite app_nil_r. reflexivity.
  - cbn [interior]. destruct (3 <=? length p)%nat eqn:H3.
    + apply Nat.leb_le in H3.
      set (nn := if (length p <? 768)%nat
                 then (length p - length p mod 3)%nat else 768%nat).
      assert (Hnn : (nn mod 3 = 0 /\ 3 <= nn <= length p)%nat).
      { subst nn. destruct (length p <? 768)%nat eqn:Hlt.
        - apply Nat.ltb_lt in Hlt. lia_mod.
        - apply Nat.ltb_ge in Hlt. split; [reflexivity | lia]. }
      destruct Hnn as [Hmod Hle].
      rewrite IH by (rewrite length_drop; lia).
      rewrite length_drop.
      assert (Hsplit : (length p - length p mod 3 =
                        nn + (length p - nn - (length p - nn) mod 3))%nat) by lia_mod.
      rewrite Hsplit.
      rewrite <- take_take_drop, drop_drop.
      rewrite Encode_app.
      * rewrite <- app_assoc. reflexivity.
      * rewrite length_take. lia_mod.
    + apply Nat.leb_gt in H3.
      replace (length p - length p mod 3)%nat with 0%nat by lia_mod.
      cbn. rewrite app_nil_r. reflexivity.
Qed.

Lemma NewEncoder_represents : represents NewEncoder [].
Proof. exists []. repeat split. cbn. lia. Qed.

Lemma Write_represents (e : encoder) (d p : list byte) :
  represents e d -> represents (Write e p) (d ++ p).
Proof.
  intros (x & Hd & Hw & Hx & Hbuf). unfold Write.
  destruct (0 <? length (buf e))%nat eqn:Hpending.
  - apply Nat.ltb_lt in Hpending.
    set (i := Nat.min (length p) (3 - length (buf e))).
    destruct (length (buf e ++ take i p) <? 3)%nat eqn:Hshort; cbn [andb].
    + apply Nat.ltb_lt in Hshort. rewrite length_app, length_take in Hshort.
      assert (Hi : (length p <= i)%nat) by lia.
      rewrite take_ge by lia.
      exists x. cbn [buf w]. rewrite length_app.
      repeat split; [| assumption | assumption | lia].
      rewrite Hd, <- app_assoc. reflexivity.
    + apply Nat.ltb_ge in Hshort. rewrite length_app, length_take in Hshort.
      rewrite interior_spec by lia.
      set (p1 := drop i p). set (n3 := (length p1 - length p1 mod 3)%nat).
      exists ((x ++ buf e ++ take i p) ++ take n3 p1). cbn [buf w].
      repeat split.
      * rewrite Hd, <- !app_assoc. rewrite take_drop. subst p1.
        rewrite take_drop. reflexivity.
      * rewrite Hw. rewrite <- Encode_app by assumption.
        rewrite <- Encode_app; [reflexivity |].
        rewrite !length_app, length_take. lia_mod.
      * rewrite !length_app, !length_take. subst n3. lia_mod.
      * rewrite length_drop. subst n3. lia_mod.
  - apply Nat.ltb_ge in Hpending. cbn [andb].
    assert (Hnil : buf e = []) by (destruct (buf e); [reflexivity | cbn in Hpending; lia]).
    rewrite Hnil in *. cbn [app take drop].
    rewrite interior_spec by lia.
    set (n3 := (length p - length p mod 3)%nat).
    exists (x ++ take n3 p). cbn [buf w]. repeat split.
    + rewrite Hd, app_nil_r, <- app_assoc, take_drop. reflexivity.
    + rewrite Hw, Encode_app by assumption. reflexivity.
    + rewrite length_app, length_take. subst n3. lia_mod.
    + rewrite length_drop. subst n3. lia_mod.
Qed.

Lemma Close_represents (e : encoder) (d : list byte) :
  represents e d -> w (Close e) = Encode d.
Proof.
  intros (x & Hd & Hw & Hx & Hbuf). unfold Close.
  destruct (0 <? length (buf e))%nat eqn:Hpending; cbn [w].
  - rewrite Hd, Hw, Encode_app by assumption. reflexivity.
  - apply Nat.ltb_ge in Hpending.
    assert (Hnil : buf e = []) by (destruct (buf e); [reflexivity | cbn in Hpending; lia]).
    rewrite Hd, Hnil, app_nil_r. exact Hw.
Qed.

(** [io.Copy] into the encoder: it fails exactly when reading the stream
    fails, with the same error; otherwise the encoder holds all the bytes. *)
Lemma io_Copy_spec (f : Reader) (e : encoder) (d : list byte) :
  represents e d ->
  match ReadAll f with
  | inl q => exists e', io_Copy e f = (e', None) /\ represents e' (d ++ q)
  | inr err => exists e', io_Copy e f = (e', Some err)
  end.
Proof.
  revert e d. induction f as [| p rest IH | err]; intros e d Hrep; cbn [ReadAll io_Copy].
  - exists e. rewrite app_nil_r. auto.
  - specialize (IH (Write e p) (d ++ p) (Write_represents e d p Hrep)).
    destruct (ReadAll rest) as [q | err].
    + destruct IH as (e' & Hcopy & Hrep'). exists e'. rewrite app_assoc. auto.
    + exact IH.
  - exists e. reflexivity.
Qed.

End base64_facts.

(** * Properties of the handler *)

(** ** The eligibility gate *)

(** [strings.HasPrefix] is the prefix test of the standard library. *)
Lemma HasPrefix_prefix (s p : string) : strings.HasPrefix s p = String.prefix p s.
Proof.
  unfold strings.HasPrefix. revert s.
  induction p as [| a p IH]; intros s.
  - destruct s; reflexivity.
  - destruct s as [| b s]; [reflexivity |].
    cbn [String.length substring String.prefix].
    change (S (String.length p) <=? S (String.length s))%nat
      with (String.length p <=? String.length s)%nat.
    cbn [String.eqb]. rewrite <- IH.
    destruct (ascii_dec a b) as [-> | Hne].
    + rewrite Ascii.eqb_refl. reflexivity.
    + assert (Hab : Ascii.eqb b a = false) by (apply Ascii.eqb_neq; congruence).
      rewrite Hab. apply andb_false_r.
Qed.

Lemma prefix_append (p s : string) : String.prefix p (p +:+ s) = true.
Proof.
  induction p as [| a p IH]; [destruct s; reflexivity |].
  change (String a p +:+ s) with (String a (p +:+ s)). cbn [String.prefix].
  destruct (ascii_dec a a); [exact IH | congruence].
Qed.

Lemma canonical_Content_Type :
  textproto.CanonicalMIMEHeaderKey "Content-Type" = "Content-Type".
Proof. reflexivity. Qed.

Lemma canonical_Content_Type_Class :
  textproto.CanonicalMIMEHeaderKey "Content-Type-Class" = "Content-Type-Class".
Proof. reflexivity. Qed.

Lemma canonical_Content_Length :
  textproto.CanonicalMIMEHeaderKey "Content-Length" = "Content-Length".
Proof. reflexivity. Qed.

(** ** The loops that build the parts *)

Lemma append_slice_of_list (l : list part) (p : part) :
  append (slice_of_list l) p = slice_of_list (l ++ [p]).
Proof. destruct l as [| x l]; reflexivity. Qed.

Lemma slice_of_list_elems (l : list part) : elems_of (slice_of_list l) = l.
Proof. destruct l; reflexivity. Qed.

Lemma append_values_spec (name : string) (values : list string) (l : list part) :
  append_values name values (slice_of_list l)
  = slice_of_list (l ++ map (text_part name) values).
Proof.
  unfold append_values. revert l.
  induction values as [| v values IH]; intros l; cbn [fold_left map].
  - rewrite app_nil_r. reflexivity.
  - rewrite append_slice_of_list, IH, <- app_assoc. reflexivity.
Qed.

Lemma text_parts_app (a b : list (string * string)) :
  text_parts (a ++ b) = text_parts a ++ text_parts b.
Proof. apply map_app. Qed.

Lemma text_parts_pair (name : string) (values : list string) :
  text_parts (map (pair name) values) = map (text_part name) values.
Proof. unfold text_parts. rewrite map_map. reflexivity. Qed.

Lemma convert_values_spec (entries : list (string * list string)) (l : list part) :
  convert_values entries (slice_of_list l)
  = slice_of_list (l ++ text_parts (flatten entries)).
Proof.
  unfold convert_values. revert l.
  induction entries as [| [name values] entries IH]; intros l; cbn [fold_left].
  - cbn. rewrite app_nil_r. reflexivity.
  - cbn [fst snd]. rewrite append_values_spec, IH.
    unfold flatten. cbn [flat_map fst snd].
    rewrite text_parts_app, text_parts_pair, <- app_assoc. reflexivity.
Qed.

(** The file encoder yields the base64 text of the content of the file, and
    fails exactly when the file cannot be opened or read. *)
Lemma encodeFileIntoMemory_spec (name : string) (file : multipart.FileHeader) :
  encodeFileIntoMemory name file =
  match file_bytes file with
  | inl data => (file_part name file data, None)
  | inr err => (part_zero, Some err)
  end.
Proof.
  unfold encodeFileIntoMemory, file_bytes.
  destruct (multipart.Open file) as [f | err]; [| reflexivity].
  pose proof (base64_facts.io_Copy_spec f base64.NewEncoder []
                base64_facts.NewEncoder_represents) as Hcopy.
  destruct (ReadAll f) as [data | err].
  - destruct Hcopy as (e' & -> & Hrep). cbn [app] in Hrep.
    unfold file_part, base64.EncodeToString.
    rewrite (base64_facts.Close_represents e' data Hrep). reflexivity.
  - destruct Hcopy as (e' & ->). reflexivity.
Qed.

Lemma file_parts_app (a b : list (string * multipart.FileHeader)) :
  file_parts (a ++ b) =
  match file_parts a with
  | inr err => inr err
  | inl pa =>
      match file_parts b with
      | inl pb => inl (pa ++ pb)
      | inr err => inr err
      end
  end.
Proof.
  induction a as [| [name file] a IH]; cbn [app file_parts].
  - destruct (file_parts b); reflexivity.
  - destruct (file_bytes file) as [data | err]; [| reflexivity].
    rewrite IH. destruct (file_parts a) as [pa | err]; [| reflexivity].
    destruct (file_parts b); reflexivity.
Qed.

Lemma append_files_spec (name : string) (files : list multipart.FileHeader)
    (l : list part) :
  append_files name files (slice_of_list l) =
  match file_parts (map (pair name) files) with
  | inl ps => inl (slice_of_list (l ++ ps))
  | inr err => inr err
  end.
Proof.
  revert l. induction files as [| file files IH]; intros l; cbn [append_files map file_parts].
  - rewrite app_nil_r. reflexivity.
  - rewrite encodeFileIntoMemory_spec.
    destruct (file_bytes file) as [data | err]; [| reflexivity].
    rewrite append_slice_of_list, IH.
    destruct (file_parts (map (pair name) files)) as [ps | err]; [| reflexivity].
    rewrite <- app_assoc. reflexivity.
Qed.

Lemma convert_files_spec (entries : list (string * list multipart.FileHeader))
    (l : list part) :
  convert_files entries (slice_of_list l) =
  match file_parts (flatten entries) with
  | inl ps => inl (slice_of_list (l ++ ps))
  | inr err => inr err
  end.
Proof.
  revert l. induction entries as [| [name files] entries IH]; intros l.
  - cbn. rewrite app_nil_r. reflexivity.
  - cbn [convert_files]. unfold flatten. cbn [flat_map fst snd].
    rewrite append_files_spec, file_parts_app.
    destruct (file_parts (map (pair name) files)) as [pa | err]; [| reflexivity].
    rewrite IH. fold (@flatten multipart.FileHeader entries).
    destruct (file_parts (flatten entries)) as [pb | err]; [| reflexivity].
    rewrite <- app_assoc. reflexivity.
Qed.

(** ** [ServeHTTP] in closed form *)

Section handler_facts.
Context {rt : http.Runtime}.

(** The gate of [ServeHTTP] is the eligibility test, and an eligible request
    goes through the conversion. *)
Lemma ServeHTTP_refines (h : Handler) (r : http.Request) :
  ServeHTTP h r = if eligible r then conversion h r else Next r.
Proof.
  unfold ServeHTTP, eligible, http.MethodPost.
  rewrite !HasPrefix_prefix.
  destruct (String.eqb (http.Method r) "POST"); cbn [negb andb]; [| reflexivity].
  destruct (String.prefix "application/x-www-form-urlencoded" _);
    destruct (String.prefix "multipart/form-data" _); cbn [negb andb orb];
    try reflexivity.
  all: unfold conversion;
    destruct (http.ParseMultipartForm r (MemoryLimit h)) as [r1 [err |]];
    [reflexivity |];
    change (http.MultipartForm (http.set_Body r1 (http.Close (http.Body r1))))
      with (http.MultipartForm r1);
    destruct (http.deref (http.MultipartForm r1)) as [form |]; [| reflexivity];
    change nil_slice with (slice_of_list []);
    rewrite convert_values_spec, convert_files_spec;
    unfold converted_parts, fields_in_order, files_in_order;
    destruct (file_parts (flatten (http.range_File (multipart.File form))))
      as [fs | err]; [| reflexivity];
    destruct (http.RemoveAll form) as [err |]; reflexivity.
Qed.

(** After a successful [ParseMultipartForm] the request holds a parsed form. *)
Lemma ParseMultipartForm_parsed (r r1 : http.Request) (maxMemory : Z) :
  http.ParseMultipartForm r maxMemory = (r1, None) ->
  exists form, http.MultipartForm r1 = http.parsedForm form.
Proof.
  unfold http.ParseMultipartForm. intros H.
  destruct (http.MultipartForm r) as [| | f0] eqn:Hmf; [| discriminate |].
  - destruct (http.Form r) as [v |].
    + rewrite Hmf in H. destruct (http.multipartReader r) as [b | e]; [| discriminate].
      destruct (http.ReadForm b (http.Body r) maxMemory) as [body [f | e]];
        [| discriminate].
      injection H as <-. eexists. reflexivity.
    + cbn [http.MultipartForm http.set_Body http.set_PostForm http.set_Form] in H.
      rewrite Hmf in H.
      destruct (http.multipartReader _) as [b | e]; [| discriminate].
      destruct (http.ReadForm b _ maxMemory) as [body [f | e]]; [| discriminate].
      injection H as <- _. eexists. reflexivity.
  - destruct (http.Form r) as [v |].
    + rewrite Hmf in H. injection H as <-. eexists. exact Hmf.
    + cbn [http.MultipartForm http.set_Body http.set_PostForm http.set_Form] in H.
      rewrite Hmf in H. injection H as <-. eexists. exact Hmf.
Qed.

(** What a successful conversion is made of. *)
Lemma conversion_Next (h : Handler) (r r' : http.Request) :
  conversion h r = Next r' ->
  exists r1 form ps,
    http.ParseMultipartForm r (MemoryLimit h) = (r1, None)
    /\ http.MultipartForm r1 = http.parsedForm form
    /\ converted_parts form = inl ps
    /\ http.RemoveAll form = None
    /\ r' = converted_request r1 (json_body ps).
Proof.
  unfold conversion. intros H.
  destruct (http.ParseMultipartForm r (MemoryLimit h)) as [r1 [err |]] eqn:Hparse;
    [discriminate |].
  destruct (ParseMultipartForm_parsed _ _ _ Hparse) as [form Hform].
  rewrite Hform in H. cbn [http.deref] in H.
  destruct (converted_parts form) as [ps | err] eqn:Hparts; [| discriminate].
  destruct (http.RemoveAll form) as [err |] eqn:Hremove; [discriminate |].
  injection H as <-. exists r1, form, ps. repeat split; assumption || reflexivity.
Qed.

Lemma ServeHTTP_converted (h : Handler) (r r' : http.Request) :
  eligible r = true -> ServeHTTP h r = Next r' ->
  exists r1 form ps,
    http.ParseMultipartForm r (MemoryLimit h) = (r1, None)
    /\ http.MultipartForm r1 = http.parsedForm form
    /\ converted_parts form = inl ps
    /\ http.RemoveAll form = None
    /\ r' = converted_request r1 (json_body ps).
Proof.
  intros Hel H. rewrite ServeHTTP_refines, Hel in H. apply conversion_Next. exact H.
Qed.

(** X17.  [ServeHTTP] never dereferences a nil [r.MultipartForm]: whenever
    [ParseMultipartForm] returns no error the request holds a parsed form, so
    no call ends in a panic. *)
Lemma ServeHTTP_never_panics (h : Handler) (r r' : http.Request) :
  ServeHTTP h r <> Panic r'.
Proof.
  rewrite ServeHTTP_refines. destruct (eligible r); [| discriminate].
  unfold conversion.
  destruct (http.ParseMultipartForm r (MemoryLimit h)) as [r1 [err |]] eqn:Hparse;
    [discriminate |].
  destruct (ParseMultipartForm_parsed _ _ _ Hparse) as [form ->]. cbn [http.deref].
  destruct (converted_parts form); [| discriminate].
  destruct (http.RemoveAll form); discriminate.
Qed.

End handler_facts.

(** ** Entries of a map visited in some order *)

Section entries.
Context {A : Type}.
Implicit Types (entries : list (string * list A)) (m : gmap string (list A)).

Lemma flatten_cons (name : string) (xs : list A) entries :
  flatten ((name, xs) :: entries) = map (pair name) xs ++ flatten entries.
Proof. reflexivity. Qed.

Lemma filter_pair_same (name : string) (xs : list A) :
  filter (fun nf : string * A => nf.1 = name) (map (pair name) xs) = map (pair name) xs.
Proof.
  induction xs as [| x xs IH]; [reflexivity |].
  cbn [map]. rewrite filter_cons_True by reflexivity. rewrite IH. reflexivity.
Qed.

Lemma filter_pair_other (name name' : string) (xs : list A) :
  name' <> name ->
  filter (fun nf : string * A => nf.1 = name) (map (pair name') xs) = [].
Proof.
  intros Hne. induction xs as [| x xs IH]; [reflexivity |].
  cbn [map]. rewrite filter_cons_False by (cbn; congruence). exact IH.
Qed.

Lemma filter_flatten_absent (name : string) entries :
  ~ In name (map fst entries) ->
  filter (fun nf : string * A => nf.1 = name) (flatten entries) = [].
Proof.
  induction entries as [| [name' xs] entries IH]; intros Hnot; [reflexivity |].
  rewrite flatten_cons, filter_app.
  rewrite filter_pair_other by (intros ->; apply Hnot; left; reflexivity).
  apply IH. intros Hin. apply Hnot. right. exact Hin.
Qed.

Lemma filter_flatten_present (name : string) (xs : list A) entries :
  List.NoDup (map fst entries) -> In (name, xs) entries ->
  filter (fun nf : string * A => nf.1 = name) (flatten entries) = map (pair name) xs.
Proof.
  induction entries as [| [name' xs'] entries IH]; intros Hnodup Hin; [destruct Hin |].
  cbn [map fst] in Hnodup. apply List.NoDup_cons_iff in Hnodup as [Hfresh Hnodup].
  rewrite flatten_cons, filter_app. destruct Hin as [Heq | Hin].
  - injection Heq as -> ->.
    rewrite filter_pair_same, filter_flatten_absent by exact Hfresh.
    apply app_nil_r.
  - assert (Hne : name' <> name).
    { intros ->. apply Hfresh. apply (in_map fst) in Hin. exact Hin. }
    rewrite filter_pair_other by exact Hne. apply IH; assumption.
Qed.

(** When the entries are those of a map, the elements filed under a name are
    the list the map holds for it, in the order of that list. *)
Lemma filter_flatten_lookup (name : string) entries m :
  entries ≡ₚ map_to_list m ->
  filter (fun nf : string * A => nf.1 = name) (flatten entries)
  = map (pair name) (default [] (m !! name)).
Proof.
  intros Hperm.
  assert (Hnodup : List.NoDup (map fst entries)).
  { apply NoDup_ListNoDup. rewrite Hperm. apply NoDup_fst_map_to_list. }
  destruct (m !! name) as [xs |] eqn:Hlookup; cbn [default].
  - apply filter_flatten_present; [exact Hnodup |].
    apply list_elem_of_In. rewrite Hperm. apply elem_of_map_to_list. exact Hlookup.
  - cbn [map]. apply filter_flatten_absent. intros Hin.
    apply in_map_iff in Hin as ([name' xs] & Hfst & Hin). cbn in Hfst. subst name'.
    apply list_elem_of_In in Hin. rewrite Hperm in Hin.
    apply elem_of_map_to_list in Hin. congruence.
Qed.

Lemma flatten_Permutation entries entries' :
  entries ≡ₚ entries' -> flatten entries ≡ₚ flatten entries'.
Proof.
  intros Hperm. unfold flatten.
  induction Hperm as [| [n xs] l l' _ IH | [n xs] [n' xs'] l | l l' l'' _ IH1 _ IH2].
  - reflexivity.
  - cbn [flat_map]. rewrite IH. reflexivity.
  - cbn [flat_map]. rewrite !app_assoc.
    apply Permutation_app_tail, Permutation_app_comm.
  - etransitivity; eassumption.
Qed.

End entries.

Lemma filter_text_parts (name : string) (fields : list (string * string)) :
  filter (fun p => Name p = name) (text_parts fields)
  = text_parts (filter (fun nv : string * string => nv.1 = name) fields).
Proof.
  unfold text_parts. induction fields as [| [n v] fields IH]; [reflexivity |].
  cbn [map]. destruct (decide (n = name)) as [Heq | Hne].
  - rewrite !filter_cons_True by exact Heq. cbn [map]. rewrite IH. reflexivity.
  - rewrite !filter_cons_False by exact Hne. exact IH.
Qed.

Lemma text_parts_values (name : string) (values : list string) :
  map Value (text_parts (map (pair name) values)) = values.
Proof.
  rewrite text_parts_pair, map_map. cbn [text_part Value]. apply map_id.
Qed.

Lemma text_parts_type (fields : list (string * string)) :
  Forall (fun p => Type_ p = "field/text") (text_parts fields).
Proof.
  unfold text_parts. apply Forall_forall. intros p Hin.
  apply list_elem_of_In, in_map_iff in Hin as (nv & <- & _). reflexivity.
Qed.

(** What a successful run over the files yields, file by file. *)
Lemma file_parts_Forall2 (files : list (string * multipart.FileHeader))
    (ps : list part) :
  file_parts files = inl ps ->
  Forall2 (fun nf p => exists data,
             file_bytes nf.2 = inl data /\ p = file_part nf.1 nf.2 data) files ps.
Proof.
  revert ps. induction files as [| [name file] files IH]; intros ps H; cbn [file_parts] in H.
  - injection H as <-. constructor.
  - destruct (file_bytes file) as [data | err] eqn:Hdata; [| discriminate].
    destruct (file_parts files) as [ps' | err]; [| discriminate].
    injection H as <-. constructor; [| apply IH; reflexivity].
    exists data. split; [exact Hdata | reflexivity].
Qed.

(** A run over the files fails as soon as one of them cannot be read, with
    the error of the first such file. *)
Lemma file_parts_error (files : list (string * multipart.FileHeader)) :
  (exists nf err, In nf files /\ file_bytes nf.2 = inr err) ->
  exists nf err, In nf files /\ file_bytes nf.2 = inr err /\ file_parts files = inr err.
Proof.
  induction files as [| [name file] files IH]; intros (nf & err & Hin & Hbad).
  - destruct Hin.
  - cbn [file_parts]. destruct (file_bytes file) as [data | err0] eqn:Hdata.
    + destruct Hin as [<- | Hin]; [cbn in Hbad; congruence |].
      destruct IH as (nf' & err' & Hin' & Hbad' & Hparts); [eauto |].
      exists nf', err'. rewrite Hparts. split; [right; exact Hin' | auto].
    + exists (name, file), err0. split; [left; reflexivity | auto].
Qed.

Lemma Forall2_filter_names (name : string)
    (files : list (string * multipart.FileHeader)) (ps : list part) :
  Forall2 (fun nf p => exists data,
             file_bytes nf.2 = inl data /\ p = file_part nf.1 nf.2 data) files ps ->
  Forall2 (fun nf p => exists data,
             file_bytes nf.2 = inl data /\ p = file_part nf.1 nf.2 data)
    (filter (fun nf : string * multipart.FileHeader => nf.1 = name) files)
    (filter (fun p => Name p = name) ps).
Proof.
  induction 1 as [| [n file] p files ps (data & Hdata & ->) _ IH]; [constructor |].
  destruct (decide (n = name)) as [Heq | Hne].
  - rewrite !filter_cons_True by exact Heq. constructor; [eauto | exact IH].
  - rewrite !filter_cons_False by exact Hne. exact IH.
Qed.

(** * The claims *)

Section claims.
Context {rt : http.Runtime}.

(** C3.  A request is handed to the next handler as it is, with no error of
    the handler's own, unless its method is POST and its Content-Type begins
    with [application/x-www-form-urlencoded] or [multipart/form-data].  The
    test is a prefix test: whatever follows the media type (parameters such
    as [; boundary=...]) leaves a POST request eligible, and an eligible
    request is not passed through but converted. *)
Theorem passthrough_unless_eligible (h : Handler) (r : http.Request) :
  (eligible r = false -> ServeHTTP h r = Next r)
  /\ (forall params : string,
        http.Method r = "POST" ->
        textproto.Get (http.Header r) "Content-Type"
          = "application/x-www-form-urlencoded" +:+ params
        \/ textproto.Get (http.Header r) "Content-Type"
          = "multipart/form-data" +:+ params ->
        eligible r = true /\ ServeHTTP h r = conversion h r).
Proof.
  split.
  - intros Hel. rewrite ServeHTTP_refines, Hel. reflexivity.
  - intros params Hmethod Hct.
    assert (Hel : eligible r = true).
    { unfold eligible. rewrite Hmethod. cbn [String.eqb Ascii.eqb Bool.eqb andb].
      destruct Hct as [-> | ->]; rewrite prefix_append;
        [reflexivity | apply orb_true_r]. }
    split; [exact Hel |]. rewrite ServeHTTP_refines, Hel. reflexivity.
Qed.

(** C4.  When the form of an eligible request fails to parse, [ServeHTTP]
    returns an HTTP 400 error whose cause is the parse error, and the next
    handler is not called. *)
Theorem parse_failure_is_bad_request (h : Handler) (r r1 : http.Request) (err : error) :
  eligible r = true ->
  http.ParseMultipartForm r (MemoryLimit h) = (r1, Some err) ->
  ServeHTTP h r = Abort r1 (mkHandlerError 400 err).
Proof.
  intros Hel Hparse.
  rewrite ServeHTTP_refines, Hel. unfold conversion. rewrite Hparse. reflexivity.
Qed.

Lemma Get_converted_request (r1 : http.Request) (buf : list byte) :
  textproto.Get (http.Header (converted_request r1 buf)) "Content-Type"
    = "application/json"
  /\ textproto.Get (http.Header (converted_request r1 buf)) "Content-Type-Class"
    = "caddy_post_json_v1"
  /\ textproto.Get (http.Header (converted_request r1 buf)) "Content-Length"
    = Itoa (Z.of_nat (length buf)).
Proof.
  unfold textproto.Get, converted_request. cbn [http.Header].
  rewrite canonical_Content_Type, canonical_Content_Type_Class, canonical_Content_Length.
  repeat split.
  - rewrite lookup_insert_ne by discriminate.
    rewrite lookup_insert_ne by discriminate.
    rewrite lookup_insert_eq. reflexivity.
  - rewrite lookup_insert_ne by discriminate.
    rewrite lookup_insert_eq. reflexivity.
  - rewrite lookup_insert_eq. reflexivity.
Qed.

(** C7.  After a successful conversion the request carries
    [Content-Type: application/json], [Content-Type-Class: caddy_post_json_v1]
    and, both in the [Content-Length] header (in decimal) and in the
    [ContentLength] field, the exact number of bytes of the serialized JSON
    that is its new body. *)
Theorem converted_request_headers (h : Handler) (r r' : http.Request) :
  eligible r = true -> ServeHTTP h r = Next r' ->
  exists ps : list part,
    http.Body r' = http.NopCloser (json_body ps)
    /\ ReadAll (http.rd (http.Body r')) = inl (json_body ps)
    /\ textproto.Get (http.Header r') "Content-Type" = "application/json"
    /\ textproto.Get (http.Header r') "Content-Type-Class" = "caddy_post_json_v1"
    /\ textproto.Get (http.Header r') "Content-Length"
       = Itoa (Z.of_nat (length (json_body ps)))
    /\ http.ContentLength r' = Z.of_nat (length (json_body ps)).
Proof.
  intros Hel Hnext.
  destruct (ServeHTTP_converted h r r' Hel Hnext)
    as (r1 & form & ps & _ & _ & _ & _ & ->).
  exists ps.
  destruct (Get_converted_request r1 (json_body ps)) as (Hct & Hclass & Hlen).
  repeat split; try assumption.
  cbn. rewrite app_nil_r. reflexivity.
Qed.

Context {laws : http.RangeLaws rt}.

Lemma converted_parts_inv (form : multipart.Form) (ps : list part) :
  converted_parts form = inl ps ->
  exists files : list part,
    ps = text_parts (fields_in_order form) ++ files
    /\ file_parts (files_in_order form) = inl files.
Proof.
  unfold converted_parts. intros H.
  destruct (file_parts (files_in_order form)) as [files | err]; [| discriminate].
  injection H as <-. exists files. auto.
Qed.

Lemma file_part_type (files : list (string * multipart.FileHeader)) (ps : list part) :
  file_parts files = inl ps -> Forall (fun p => Type_ p = "file/base64") ps.
Proof.
  intros H. apply file_parts_Forall2 in H.
  induction H as [| nf p files ps (data & _ & ->) _ IH]; constructor;
    [reflexivity | exact IH].
Qed.

(** C5.  In the part list of a successful conversion all the text-field
    parts come before all the file parts, and for each field name the parts
    of that name carry the values, respectively the files, that the parsed
    form holds under that name, in the order of the form. *)
Theorem parts_grouped_and_ordered (h : Handler) (r r' : http.Request) :
  eligible r = true -> ServeHTTP h r = Next r' ->
  exists (r1 : http.Request) (form : multipart.Form) (texts files : list part),
    http.ParseMultipartForm r (MemoryLimit h) = (r1, None)
    /\ http.MultipartForm r1 = http.parsedForm form
    /\ http.Body r' = http.NopCloser (json_body (texts ++ files))
    /\ Forall (fun p => Type_ p = "field/text") texts
    /\ Forall (fun p => Type_ p = "file/base64") files
    /\ (forall name : string,
          map Value (filter (fun p => Name p = name) texts)
          = default [] (multipart.Value form !! name))
    /\ (forall name : string,
          Forall2 (fun file p => encodeFileIntoMemory name file = (p, None))
            (default [] (multipart.File form !! name))
            (filter (fun p => Name p = name) files)).
Proof.
  intros Hel Hnext.
  destruct (ServeHTTP_converted h r r' Hel Hnext)
    as (r1 & form & ps & Hparse & Hform & Hparts & _ & ->).
  destruct (converted_parts_inv form ps Hparts) as (files & -> & Hfiles).
  exists r1, form, (text_parts (fields_in_order form)), files.
  split; [exact Hparse |]. split; [exact Hform |]. split; [reflexivity |].
  split; [apply text_parts_type |]. split; [eapply file_part_type; exact Hfiles |].
  split.
  - intros name. rewrite filter_text_parts. unfold fields_in_order.
    rewrite (filter_flatten_lookup name _ (multipart.Value form))
      by apply http.range_Value_perm.
    apply text_parts_values.
  - intros name. apply file_parts_Forall2 in Hfiles.
    apply (Forall2_filter_names name) in Hfiles. unfold files_in_order in Hfiles.
    rewrite (filter_flatten_lookup name _ (multipart.File form)) in Hfiles
      by apply http.range_File_perm.
    apply Forall2_fmap_l in Hfiles.
    eapply Forall2_impl; [exact Hfiles |].
    intros file p (data & Hdata & ->). cbn [fst snd] in *.
    rewrite encodeFileIntoMemory_spec, Hdata. reflexivity.
Qed.

Lemma EncodeToString_decodes (data : list byte) :
  base64.DecodeString (base64.EncodeToString data) = Some data.
Proof.
  unfold base64.DecodeString, base64.EncodeToString.
  rewrite list_byte_of_string_of_list_byte. apply base64_facts.Decode_Encode.
Qed.

Lemma EncodeToString_no_line_breaks (data : list byte) :
  base64.no_line_breaks (base64.EncodeToString data).
Proof.
  unfold base64.no_line_breaks, base64.EncodeToString.
  rewrite list_byte_of_string_of_list_byte.
  pose proof (base64_facts.Encode_base64_chars data) as Hall.
  repeat split; [| | exact Hall].
  - intros Hin. apply list_elem_of_In in Hin.
    rewrite Forall_forall in Hall. specialize (Hall _ Hin). discriminate Hall.
  - intros Hin. apply list_elem_of_In in Hin.
    rewrite Forall_forall in Hall. specialize (Hall _ Hin). discriminate Hall.
Qed.

(** C6.  In a successful conversion the file parts correspond one to one to
    the files uploaded with the form, each file being visited exactly once:
    the part of a file has the kind [file/base64], carries the name, file
    name and content type of the file, and its value is base64 text without
    line breaks that decodes to the exact bytes of the file.  No other part
    has the kind [file/base64]. *)
Theorem file_parts_round_trip (h : Handler) (r r' : http.Request) :
  eligible r = true -> ServeHTTP h r = Next r' ->
  exists (r1 : http.Request) (form : multipart.Form) (texts files : list part),
    http.ParseMultipartForm r (MemoryLimit h) = (r1, None)
    /\ http.MultipartForm r1 = http.parsedForm form
    /\ http.Body r' = http.NopCloser (json_body (texts ++ files))
    /\ Forall (fun p => Type_ p = "field/text") texts
    /\ files_in_order form ≡ₚ uploaded_files form
    /\ Forall2 (fun (nf : string * multipart.FileHeader) (p : part) =>
                  Name p = nf.1
                  /\ Type_ p = "file/base64"
                  /\ FileName p = multipart.Filename nf.2
                  /\ ContentType p = textproto.Get (multipart.Header nf.2) "Content-Type"
                  /\ base64.no_line_breaks (Value p)
                  /\ exists data : list byte,
                       file_bytes nf.2 = inl data
                       /\ base64.DecodeString (Value p) = Some data)
         (files_in_order form) files.
Proof.
  intros Hel Hnext.
  destruct (ServeHTTP_converted h r r' Hel Hnext)
    as (r1 & form & ps & Hparse & Hform & Hparts & _ & ->).
  destruct (converted_parts_inv form ps Hparts) as (files & -> & Hfiles).
  exists r1, form, (text_parts (fields_in_order form)), files.
  split; [exact Hparse |]. split; [exact Hform |]. split; [reflexivity |].
  split; [apply text_parts_type |]. split.
  - unfold files_in_order, uploaded_files. apply flatten_Permutation.
    apply http.range_File_perm.
  - apply file_parts_Forall2 in Hfiles.
    eapply Forall2_impl; [exact Hfiles |].
    intros [name file] p (data & Hdata & ->). cbn [fst snd file_part Name Type_
      FileName ContentType Value] in *.
    do 4 (split; [reflexivity |]).
    split; [apply EncodeToString_no_line_breaks |].
    exists data. split; [exact Hdata | apply EncodeToString_decodes].
Qed.

(** C9.  Once the form of an eligible request is parsed: if some uploaded
    file cannot be opened or read, [ServeHTTP] returns an HTTP 500 error
    whose cause is the error of the first such file in iteration order, the
    encoder having returned the zero part for it; if all files are encoded
    and removing the temporary files fails, it returns an HTTP 500 error
    whose cause is that failure.  In both cases the next handler is not
    called and the request is left with the headers and the (closed) body the
    parser left: no JSON buffer is put in place. *)
Theorem encode_and_cleanup_failures (h : Handler) (r r1 : http.Request)
    (form : multipart.Form) :
  eligible r = true ->
  http.ParseMultipartForm r (MemoryLimit h) = (r1, None) ->
  http.MultipartForm r1 = http.parsedForm form ->
  (forall (name : string) (file : multipart.FileHeader) (err : error),
      In (name, file) (uploaded_files form) -> file_bytes file = inr err ->
      exists (name' : string) (file' : multipart.FileHeader) (err' : error),
        In (name', file') (uploaded_files form)
        /\ file_bytes file' = inr err'
        /\ encodeFileIntoMemory name' file' = (part_zero, Some err')
        /\ ServeHTTP h r = Abort (abandoned_request r1) (mkHandlerError 500 err'))
  /\ (forall (ps : list part) (err : error),
        converted_parts form = inl ps -> http.RemoveAll form = Some err ->
        ServeHTTP h r = Abort (abandoned_request r1) (mkHandlerError 500 err))
  /\ http.Header (abandoned_request r1) = http.Header r1
  /\ http.Body (abandoned_request r1) = http.Close (http.Body r1).
Proof.
  intros Hel Hparse Hform.
  assert (Hserve : ServeHTTP h r =
            match converted_parts form with
            | inr err => Abort (abandoned_request r1) (mkHandlerError 500 err)
            | inl ps =>
                match http.RemoveAll form with
                | Some err => Abort (abandoned_request r1) (mkHandlerError 500 err)
                | None => Next (converted_request r1 (json_body ps))
                end
            end).
  { rewrite ServeHTTP_refines, Hel. unfold conversion.
    rewrite Hparse, Hform. reflexivity. }
  split; [| split; [| split; reflexivity]].
  - intros name file err Hin Hbad.
    assert (Hperm : files_in_order form ≡ₚ uploaded_files form).
    { unfold files_in_order, uploaded_files. apply flatten_Permutation.
      apply http.range_File_perm. }
    destruct (file_parts_error (files_in_order form))
      as ([name' file'] & err' & Hin' & Hbad' & Hfail).
    { exists (name, file), err. split; [| exact Hbad].
      apply list_elem_of_In. rewrite Hperm. apply list_elem_of_In. exact Hin. }
    cbn [fst snd] in Hbad'. exists name', file', err'.
    split.
    { apply list_elem_of_In. rewrite <- Hperm. apply list_elem_of_In. exact Hin'. }
    split; [exact Hbad' |]. split.
    + rewrite encodeFileIntoMemory_spec, Hbad'. reflexivity.
    + rewrite Hserve. unfold converted_parts. rewrite Hfail. reflexivity.
  - intros ps err Hparts Hremove. rewrite Hserve, Hparts, Hremove. reflexivity.
Qed.

End claims.

(** C10.  Every field of a part is marshalled under its tag name exactly when
    it is not the empty string: a field holding the empty string has no
    member in the JSON object, so a text field submitted with an empty value
    gives an object without a [value] member. *)
Theorem empty_fields_are_omitted (p : part) (key v : string) :
  In (key, v) (part_fields p) ->
  (In key (member_keys (marshal_part p)) <-> v <> "")
  /\ (v <> "" -> In (key, json.Str v) (match marshal_part p with
                                        | json.Object members => members
                                        | _ => []
                                        end))
  /\ forall name : string,
       marshal_part (text_part name "")
       = json.Object (omitempty "name" name ++ [("type", json.Str "field/text")]).
Proof.
  intros Hin. destruct p as [n t x c f].
  unfold part_fields, marshal_part, member_keys, omitempty in *.
  cbn [Name Type_ Value ContentType FileName] in *.
  split; [| split; [| reflexivity]].
  - destruct (String.eqb_spec n ""), (String.eqb_spec t ""), (String.eqb_spec x ""),
      (String.eqb_spec c ""), (String.eqb_spec f ""); subst;
      cbn [app map fst In] in *;
      intuition (try congruence; try discriminate).
  - intros Hv.
    destruct (String.eqb_spec n ""), (String.eqb_spec t ""), (String.eqb_spec x ""),
      (String.eqb_spec c ""), (String.eqb_spec f ""); subst;
      cbn [app map fst In] in *;
      intuition (try congruence; try discriminate).
Qed.

(** ** Where the code departs from the specification *)

(** The media type of [application/x-www-form-urlencoded], whatever the
    runtime. *)
Lemma ParseMediaType_urlencoded {rt : http.Runtime} :
  http.ParseMediaType "application/x-www-form-urlencoded"
  = ("application/x-www-form-urlencoded", Some ∅, None).
Proof. reflexivity. Qed.

(** [ParseMultipartForm] refuses a fresh URL-encoded POST request: it is not
    a multipart form. *)
Lemma urlencoded_is_not_multipart {rt : http.Runtime} (h : Handler) (r : http.Request) :
  http.Method r = "POST" ->
  textproto.Get (http.Header r) "Content-Type" = "application/x-www-form-urlencoded" ->
  http.MultipartForm r = http.nilForm ->
  exists r1 : http.Request,
    http.Header r1 = http.Header r
    /\ ServeHTTP h r = Abort r1 (mkHandlerError 400 ErrNotMultipart).
Proof.
  intros Hmethod Hct Hmf.
  assert (Hel : eligible r = true).
  { unfold eligible. rewrite Hmethod, Hct. reflexivity. }
  rewrite ServeHTTP_refines, Hel. unfold conversion, http.ParseMultipartForm.
  rewrite Hmf.
  destruct (http.Form r) as [v |].
  - rewrite Hmf. unfold http.multipartReader. rewrite Hct.
    rewrite ParseMediaType_urlencoded. cbn. eexists. split; [| reflexivity]. reflexivity.
  - cbn [http.MultipartForm http.set_Body http.set_PostForm http.set_Form].
    rewrite Hmf. unfold http.multipartReader.
    cbn [http.Header http.set_Body http.set_PostForm http.set_Form].
    rewrite Hct, ParseMediaType_urlencoded. cbn. eexists. split; [| reflexivity]. reflexivity.
Qed.

(** C1 (counter-evidence).  The POST request with Content-Type
    [application/x-www-form-urlencoded] and body [a=1&a=2] is not converted:
    whatever the runtime and the handler, [ServeHTTP] answers it with an HTTP
    400 error caused by [http.ErrNotMultipart] and does not call the next
    handler. *)
Theorem urlencoded_scenario_is_rejected :
  forall (rt : http.Runtime) (h : Handler),
    eligible demo.post_urlencoded = true
    /\ exists r1 : http.Request,
         http.Header r1 = http.Header demo.post_urlencoded
         /\ ServeHTTP h demo.post_urlencoded
            = Abort r1 (mkHandlerError 400 ErrNotMultipart).
Proof.
  intros rt h. split; [reflexivity |].
  apply urlencoded_is_not_multipart; reflexivity.
Qed.

(** [Provision] leaves the handler of its caller as it was. *)
Lemma Provision_unchanged (h : Handler) : Provision h = (h, None).
Proof. reflexivity. Qed.

(** The copy the body of [Provision] works on does get a positive limit: the
    default when the configured one is not positive. *)
Lemma Provision_body_limit (h : Handler) :
  MemoryLimit (fst (Provision_body h))
  = (if MemoryLimit h <=? 0 then defaultMemLimit else MemoryLimit h)
  /\ 0 < MemoryLimit (fst (Provision_body h)).
Proof.
  unfold Provision_body. cbn [fst].
  destruct (MemoryLimit h <=? 0) eqn:Hle; cbn [MemoryLimit].
  - split; [reflexivity | reflexivity].
  - apply Z.leb_gt in Hle. split; [reflexivity | exact Hle].
Qed.

(** C2 (counter-evidence).  For the handler with an unset memory limit, the
    body of [Provision] does put the default of 2 MiB in its own copy, but
    the handler of the caller still has the limit 0 after the call, and this
    is the limit [ServeHTTP] passes to the form parser: the sample runtime,
    whose parser reports the limit it is given, reports [0]. *)
Theorem Provision_does_not_install_default :
  MemoryLimit (fst (Provision_body (mkHandler 0))) = 2 * 1024 * 1024
  /\ snd (Provision (mkHandler 0)) = None
  /\ MemoryLimit (fst (Provision (mkHandler 0))) = 0
  /\ ServeHTTP (rt := demo.runtime) (fst (Provision (mkHandler 0)))
       (demo.post_multipart "limit")
     = Abort (http.mkRequest "POST"
                {[ "Content-Type" := ["multipart/form-data; boundary=x"] ]}
                (http.mkReadCloser EOF false) 5 (Some ∅) (Some ∅) http.nilForm)
             (mkHandlerError 400 (errors_New "0")).
Proof. repeat split; vm_compute; reflexivity. Qed.

Lemma range_empty {A : Type} (entries : list (string * list A)) :
  entries ≡ₚ map_to_list (∅ : gmap string (list A)) -> entries = [].
Proof. rewrite map_to_list_empty. apply Permutation_nil_r. Qed.

(** C8 (counter-evidence).  For an eligible request whose parsed form has no
    field and no file the conversion succeeds and the new body is the JSON
    document [null] followed by a newline, not an array: the part slice is
    still the nil slice when it is marshalled. *)
Theorem empty_form_body_is_null {rt : http.Runtime} {laws : http.RangeLaws rt}
    (h : Handler) (r r1 : http.Request) :
  eligible r = true ->
  http.ParseMultipartForm r (MemoryLimit h) = (r1, None) ->
  http.MultipartForm r1 = http.parsedForm (multipart.mkForm ∅ ∅) ->
  http.RemoveAll (multipart.mkForm ∅ ∅) = None ->
  ServeHTTP h r
  = Next (converted_request r1 (list_byte_of_string ("null" +:+ json.newline)))
  /\ marshal nil_slice = json.Null.
Proof.
  intros Hel Hparse Hform Hremove. split; [| reflexivity].
  rewrite ServeHTTP_refines, Hel. unfold conversion.
  rewrite Hparse, Hform. cbn [http.deref].
  unfold converted_parts, files_in_order, fields_in_order. cbn [multipart.File multipart.Value].
  rewrite (range_empty _ (http.range_File_perm ∅)).
  rewrite (range_empty _ (http.range_Value_perm ∅)).
  cbn [flatten flat_map file_parts text_parts map app].
  rewrite Hremove. reflexivity.
Qed.

(** A slice with at least one part is marshalled as an array of objects. *)
Lemma marshal_nonempty (ps : list part) :
  ps <> [] ->
  marshal (slice_of_list ps) = json.Array (map marshal_part ps)
  /\ Forall (fun v => exists members, v = json.Object members) (map marshal_part ps).
Proof.
  intros Hne. split.
  - destruct ps; [congruence | reflexivity].
  - apply Forall_forall. intros v Hin.
    apply list_elem_of_In, in_map_iff in Hin as (p & <- & _).
    unfold marshal_part. eexists. reflexivity.
Qed.

(** The multipart counterpart of the scenario of C1: when the parsed form
    holds the two values [1] and [2] under the name [a] and nothing else, the
    new body is the array of the two text parts, in that order. *)
Lemma multipart_duplicate_values {rt : http.Runtime} {laws : http.RangeLaws rt}
    (h : Handler) (r r1 : http.Request) (form : multipart.Form) :
  eligible r = true ->
  http.ParseMultipartForm r (MemoryLimit h) = (r1, None) ->
  http.MultipartForm r1 = http.parsedForm form ->
  multipart.Value form = {[ "a" := ["1"; "2"] ]} ->
  multipart.File form = ∅ ->
  http.RemoveAll form = None ->
  ServeHTTP h r
  = Next (converted_request r1 (json_body [text_part "a" "1"; text_part "a" "2"]))
  /\ marshal (slice_of_list [text_part "a" "1"; text_part "a" "2"])
     = json.Array [json.Object [("name", json.Str "a"); ("type", json.Str "field/text");
                                ("value", json.Str "1")];
                   json.Object [("name", json.Str "a"); ("type", json.Str "field/text");
                                ("value", json.Str "2")]].
Proof.
  intros Hel Hparse Hform Hvalue Hfile Hremove. split; [| reflexivity].
  rewrite ServeHTTP_refines, Hel. unfold conversion.
  rewrite Hparse, Hform. cbn [http.deref].
  unfold converted_parts, files_in_order, fields_in_order. rewrite Hvalue, Hfile.
  rewrite (range_empty _ (http.range_File_perm ∅)).
  pose proof (http.range_Value_perm {[ "a" := ["1"; "2"] ]}) as Hperm.
  rewrite map_to_list_singleton in Hperm.
  apply Permutation_singleton_r in Hperm. rewrite Hperm.
  cbn [flatten flat_map file_parts text_parts map app fst snd].
  rewrite Hremove. reflexivity.
Qed.

(** ** The claims on the sample requests *)

Lemma demo_range_laws : http.RangeLaws demo.runtime.
Proof. split; intros m; reflexivity. Qed.

Lemma passthrough_unless_eligible_witness :
  ServeHTTP (rt := demo.runtime) (mkHandler 0)
    (demo.request "GET" "multipart/form-data; boundary=x" "alice")
  = Next (demo.request "GET" "multipart/form-data; boundary=x" "alice")
  /\ ServeHTTP (rt := demo.runtime) (mkHandler 0)
       (demo.request "POST" "application/json" "{}")
     = Next (demo.request "POST" "application/json" "{}")
  /\ eligible (demo.post_multipart "alice") = true.
Proof.
  split; [| split].
  - apply (proj1 (passthrough_unless_eligible (rt := demo.runtime) (mkHandler 0)
                    (demo.request "GET" "multipart/form-data; boundary=x" "alice"))).
    reflexivity.
  - apply (proj1 (passthrough_unless_eligible (rt := demo.runtime) (mkHandler 0)
                    (demo.request "POST" "application/json" "{}"))).
    reflexivity.
  - apply (proj2 (passthrough_unless_eligible (rt := demo.runtime) (mkHandler 0)
                    (demo.post_multipart "alice")) "; boundary=x").
    + reflexivity.
    + right. reflexivity.
Defined.

Lemma parse_failure_is_bad_request_witness :
  ServeHTTP (rt := demo.runtime) (mkHandler 0)
    (demo.request "POST" "multipart/form-data" "alice")
  = Abort (http.mkRequest "POST" {[ "Content-Type" := ["multipart/form-data"] ]}
             (demo.body_of "alice") 5 (Some ∅) (Some ∅) http.nilForm)
          (mkHandlerError 400 ErrMissingBoundary).
Proof.
  apply (parse_failure_is_bad_request (rt := demo.runtime)).
  - reflexivity.
  - vm_compute. reflexivity.
Defined.

Lemma converted_request_headers_witness :
  exists ps : list part,
    http.Body (demo.converted "alice" demo.form_alice demo.alice_parts)
      = http.NopCloser (json_body (rt := demo.runtime) ps)
    /\ ReadAll (http.rd (http.Body (demo.converted "alice" demo.form_alice demo.alice_parts)))
       = inl (json_body (rt := demo.runtime) ps)
    /\ textproto.Get (http.Header (demo.converted "alice" demo.form_alice demo.alice_parts))
         "Content-Type" = "application/json"
    /\ textproto.Get (http.Header (demo.converted "alice" demo.form_alice demo.alice_parts))
         "Content-Type-Class" = "caddy_post_json_v1"
    /\ textproto.Get (http.Header (demo.converted "alice" demo.form_alice demo.alice_parts))
         "Content-Length" = Itoa (Z.of_nat (length (json_body (rt := demo.runtime) ps)))
    /\ http.ContentLength (demo.converted "alice" demo.form_alice demo.alice_parts)
       = Z.of_nat (length (json_body (rt := demo.runtime) ps)).
Proof.
  apply (converted_request_headers (rt := demo.runtime) (mkHandler 0)
           (demo.post_multipart "alice")).
  - reflexivity.
  - vm_compute. reflexivity.
Defined.

Lemma parts_grouped_and_ordered_witness :
  exists (r1 : http.Request) (form : multipart.Form) (texts files : list part),
    http.ParseMultipartForm (rt := demo.runtime) (demo.post_multipart "dup") 0 = (r1, None)
    /\ http.MultipartForm r1 = http.parsedForm form
    /\ http.Body (demo.converted "dup" demo.form_dup
                    [text_part "a" "1"; text_part "a" "2"])
       = http.NopCloser (json_body (rt := demo.runtime) (texts ++ files))
    /\ Forall (fun p => Type_ p = "field/text") texts
    /\ Forall (fun p => Type_ p = "file/base64") files
    /\ (forall name : string,
          map Value (filter (fun p => Name p = name) texts)
          = default [] (multipart.Value form !! name))
    /\ (forall name : string,
          Forall2 (fun file p => encodeFileIntoMemory name file = (p, None))
            (default [] (multipart.File form !! name))
            (filter (fun p => Name p = name) files)).
Proof.
  apply (parts_grouped_and_ordered (rt := demo.runtime) (laws := demo_range_laws)
           (mkHandler 0) (demo.post_multipart "dup")).
  - reflexivity.
  - vm_compute. reflexivity.
Defined.

Lemma file_parts_round_trip_witness :
  exists (r1 : http.Request) (form : multipart.Form) (texts files : list part),
    http.ParseMultipartForm (rt := demo.runtime) (demo.post_multipart "alice") 10
      = (r1, None)
    /\ http.MultipartForm r1 = http.parsedForm form
    /\ http.Body (demo.converted "alice" demo.form_alice demo.alice_parts)
       = http.NopCloser (json_body (rt := demo.runtime) (texts ++ files))
    /\ Forall (fun p => Type_ p = "field/text") texts
    /\ files_in_order (rt := demo.runtime) form ≡ₚ uploaded_files form
    /\ Forall2 (fun (nf : string * multipart.FileHeader) (p : part) =>
                  Name p = nf.1
                  /\ Type_ p = "file/base64"
                  /\ FileName p = multipart.Filename nf.2
                  /\ ContentType p = textproto.Get (multipart.Header nf.2) "Content-Type"
                  /\ base64.no_line_breaks (Value p)
                  /\ exists data : list byte,
                       file_bytes nf.2 = inl data
                       /\ base64.DecodeString (Value p) = Some data)
         (files_in_order (rt := demo.runtime) form) files.
Proof.
  apply (file_parts_round_trip (rt := demo.runtime) (laws := demo_range_laws)
           (mkHandler 10) (demo.post_multipart "alice")).
  - reflexivity.
  - vm_compute. reflexivity.
Defined.

Lemma empty_form_body_is_null_witness :
  ServeHTTP (rt := demo.runtime) (mkHandler 0) (demo.post_multipart "empty")
  = Next (converted_request (demo.parsed "empty" demo.form_empty)
            (list_byte_of_string ("null" +:+ json.newline)))
  /\ marshal nil_slice = json.Null.
Proof.
  apply (empty_form_body_is_null (rt := demo.runtime) (laws := demo_range_laws)).
  - vm_compute. reflexivity.
  - vm_compute. reflexivity.
  - vm_compute. reflexivity.
  - vm_compute. reflexivity.
Defined.

Lemma encode_and_cleanup_failures_witness :
  (exists (name' : string) (file' : multipart.FileHeader) (err' : error),
      In (name', file') (uploaded_files demo.form_broken)
      /\ file_bytes file' = inr err'
      /\ encodeFileIntoMemory name' file' = (part_zero, Some err')
      /\ ServeHTTP (rt := demo.runtime) (mkHandler 0) (demo.post_multipart "broken")
         = Abort (abandoned_request (demo.parsed "broken" demo.form_broken))
                 (mkHandlerError 500 err'))
  /\ ServeHTTP (rt := demo.runtime) (mkHandler 0) (demo.post_multipart "stuck")
     = Abort (abandoned_request (demo.parsed "stuck" demo.form_stuck))
             (mkHandlerError 500 demo.remove_error).
Proof.
  split.
  - refine (proj1 (encode_and_cleanup_failures (rt := demo.runtime)
                     (laws := demo_range_laws) (mkHandler 0)
                     (demo.post_multipart "broken")
                     (demo.parsed "broken" demo.form_broken) demo.form_broken
                     _ _ _)
              "upload" demo.broken demo.disk_error _ _).
    + vm_compute. reflexivity.
    + vm_compute. reflexivity.
    + vm_compute. reflexivity.
    + vm_compute. left. reflexivity.
    + vm_compute. reflexivity.
  - refine (proj1 (proj2 (encode_and_cleanup_failures (rt := demo.runtime)
                            (laws := demo_range_laws) (mkHandler 0)
                            (demo.post_multipart "stuck")
                            (demo.parsed "stuck" demo.form_stuck) demo.form_stuck
                            _ _ _))
              [file_part "stuck" demo.avatar (demo.bytes "PNGDATA")]
              demo.remove_error _ _).
    + vm_compute. reflexivity.
    + vm_compute. reflexivity.
    + vm_compute. reflexivity.
    + vm_compute. reflexivity.
    + vm_compute. reflexivity.
Defined.

Lemma empty_fields_are_omitted_witness :
  (In "value" (member_keys (marshal_part (text_part "note" ""))) <-> "" <> "")
  /\ ("" <> "" -> In ("value", json.Str "")
                    (match marshal_part (text_part "note" "") with
                     | json.Object members => members
                     | _ => []
                     end))
  /\ forall name : string,
       marshal_part (text_part name "")
       = json.Object (omitempty "name" name ++ [("type", json.Str "field/text")]).
Proof.
  apply (empty_fields_are_omitted (text_part "note" "") "value" "").
  vm_compute. right. right. left. reflexivity.
Defined.

(** * Further properties of the handler *)

(** ** What the form parser leaves alone *)

Section further.
Context {rt : http.Runtime}.

(** [ParseMultipartForm] never touches the method, the headers or the
    content length of the request. *)
Lemma ParseMultipartForm_preserves (r : http.Request) (maxMemory : Z) :
  http.Method (fst (http.ParseMultipartForm r maxMemory)) = http.Method r
  /\ http.Header (fst (http.ParseMultipartForm r maxMemory)) = http.Header r
  /\ http.ContentLength (fst (http.ParseMultipartForm r maxMemory)) = http.ContentLength r.
Proof.
  unfold http.ParseMultipartForm.
  destruct (http.MultipartForm r) as [| | f0] eqn:Hmf; [| auto |];
    destruct (http.Form r) as [v |];
    cbn [http.MultipartForm http.set_Body http.set_PostForm http.set_Form];
    rewrite ?Hmf; cbn [fst]; auto.
  - destruct (http.multipartReader r) as [b | e]; [| auto].
    destruct (http.ReadForm b (http.Body r) maxMemory) as [body [f | e]]; cbn; auto.
  - destruct (http.multipartReader _) as [b | e]; [| cbn; auto].
    destruct (http.ReadForm b _ maxMemory) as [body [f | e]]; cbn; auto.
Qed.

(** The multipart reader looks at the headers only. *)
Lemma multipartReader_header (r1 r2 : http.Request) :
  http.Header r1 = http.Header r2 -> http.multipartReader r1 = http.multipartReader r2.
Proof. unfold http.multipartReader. intros ->. reflexivity. Qed.

(** A fresh eligible request that the multipart reader refuses is answered
    with an HTTP 400 error carrying the reader's error. *)
Lemma refused_by_multipartReader (h : Handler) (r : http.Request) (err : error) :
  eligible r = true -> http.MultipartForm r = http.nilForm ->
  http.multipartReader r = inr err ->
  exists r1 : http.Request,
    http.Header r1 = http.Header r
    /\ ServeHTTP h r = Abort r1 (mkHandlerError 400 err).
Proof.
  intros Hel Hmf Hreader.
  rewrite ServeHTTP_refines, Hel. unfold conversion, http.ParseMultipartForm.
  rewrite Hmf. destruct (http.Form r) as [v |].
  - rewrite Hmf, Hreader. eexists. split; [| reflexivity]. reflexivity.
  - cbn [http.MultipartForm http.set_Body http.set_PostForm http.set_Form].
    rewrite Hmf.
    rewrite (multipartReader_header _ r) by reflexivity.
    rewrite Hreader. eexists. split; [| reflexivity]. reflexivity.
Qed.

(** X1.  [ServeHTTP] answers with an error only to eligible requests; the
    status is 400 exactly when the form parser returned the error carried,
    and 500 otherwise, the form having been parsed; in both cases the method,
    the headers and the content length of the request are those it came
    with. *)
Theorem abort_leaves_request_metadata (h : Handler) (r r' : http.Request)
    (e : HandlerError) :
  ServeHTTP h r = Abort r' e ->
  eligible r = true
  /\ http.Method r' = http.Method r
  /\ http.Header r' = http.Header r
  /\ http.ContentLength r' = http.ContentLength r
  /\ (StatusCode e = 400
        /\ snd (http.ParseMultipartForm r (MemoryLimit h)) = Some (Err e)
      \/ StatusCode e = 500
        /\ snd (http.ParseMultipartForm r (MemoryLimit h)) = None).
Proof.
  rewrite ServeHTTP_refines. destruct (eligible r); [| discriminate].
  unfold conversion.
  destruct (ParseMultipartForm_preserves r (MemoryLimit h)) as (Hm & Hh & Hc).
  destruct (http.ParseMultipartForm r (MemoryLimit h)) as [r1 [err |]];
    cbn [fst snd] in *.
  - intros H. injection H as <- <-. cbn. auto 10.
  - destruct (http.deref (http.MultipartForm r1)) as [form |]; [| discriminate].
    destruct (converted_parts form) as [ps | err].
    + destruct (http.RemoveAll form) as [err |]; [| discriminate].
      intros H. injection H as <- <-. cbn. auto 10.
    + intros H. injection H as <- <-. cbn. auto 10.
Qed.

(** X2.  A successful conversion keeps the method of the request and every
    header other than [Content-Type], [Content-Type-Class] and
    [Content-Length]. *)
Theorem conversion_keeps_other_headers (h : Handler) (r r' : http.Request) :
  eligible r = true -> ServeHTTP h r = Next r' ->
  http.Method r' = http.Method r
  /\ forall key : string,
       textproto.CanonicalMIMEHeaderKey key <> "Content-Type" ->
       textproto.CanonicalMIMEHeaderKey key <> "Content-Type-Class" ->
       textproto.CanonicalMIMEHeaderKey key <> "Content-Length" ->
       textproto.Get (http.Header r') key = textproto.Get (http.Header r) key.
Proof.
  intros Hel Hnext.
  destruct (ServeHTTP_converted h r r' Hel Hnext)
    as (r1 & form & ps & Hparse & _ & _ & _ & ->).
  destruct (ParseMultipartForm_preserves r (MemoryLimit h)) as (Hm & Hh & _).
  rewrite Hparse in Hm, Hh. cbn [fst] in Hm, Hh.
  split; [exact Hm |].
  intros key H1 H2 H3. unfold textproto.Get, converted_request. cbn [http.Header].
  rewrite !lookup_insert_ne by congruence. rewrite Hh. reflexivity.
Qed.

(** The content type of a converted request. *)
Lemma converted_content_type (h : Handler) (r r' : http.Request) :
  eligible r = true -> ServeHTTP h r = Next r' ->
  textproto.Get (http.Header r') "Content-Type" = "application/json".
Proof.
  intros Hel Hnext.
  destruct (ServeHTTP_converted h r r' Hel Hnext)
    as (r1 & form & ps & _ & _ & _ & _ & ->).
  unfold textproto.Get, converted_request. cbn [http.Header].
  rewrite canonical_Content_Type.
  rewrite !lookup_insert_ne by discriminate.
  rewrite lookup_insert_eq. reflexivity.
Qed.

(** X3.  Whatever [ServeHTTP] hands to the next handler is passed through
    unchanged by a second run of the handler, with any memory limit: a
    converted request is [application/json] and no longer eligible. *)
Theorem forwarded_request_is_passed_through (h h' : Handler) (r r' : http.Request) :
  ServeHTTP h r = Next r' -> ServeHTTP h' r' = Next r'.
Proof.
  intros Hnext. destruct (eligible r) eqn:Hel.
  - pose proof (converted_content_type h r r' Hel Hnext) as Hct.
    rewrite ServeHTTP_refines.
    assert (Hel' : eligible r' = false).
    { unfold eligible. rewrite Hct. apply andb_false_r. }
    rewrite Hel'. reflexivity.
  - rewrite ServeHTTP_refines, Hel in Hnext. injection Hnext as <-.
    rewrite ServeHTTP_refines, Hel. reflexivity.
Qed.

End further.

(** ** The file encoder *)

Lemma string_of_list_byte_length (l : list byte) :
  String.length (string_of_list_byte l) = length l.
Proof.
  unfold string_of_list_byte.
  induction l as [| b l IH]; [reflexivity |].
  cbn [List.map string_of_list_ascii String.length length]. f_equal. exact IH.
Qed.

Lemma string_of_list_byte_nil_inv (l : list byte) :
  string_of_list_byte l = "" -> l = [].
Proof. destruct l; [reflexivity | discriminate]. Qed.

(** X4.  The part of a file does not depend on how its content is stored or
    read: whatever the chunks in which the opened file hands out its bytes
    (one chunk for a file held in memory, any sequence of reads for a file
    spilled to disk) and whatever its recorded size, the value is the
    standard base64 encoding of the whole content. *)
Theorem encodeFileIntoMemory_chunking (name filename : string)
    (header : textproto.MIMEHeader) (size size' : Z) (f : Reader) (data : list byte) :
  ReadAll f = inl data ->
  encodeFileIntoMemory name (multipart.mkFileHeader filename header size (inl f))
  = encodeFileIntoMemory name
      (multipart.mkFileHeader filename header size' (inl (bytes_NewReader data)))
  /\ Value (fst (encodeFileIntoMemory name
                   (multipart.mkFileHeader filename header size (inl f))))
     = base64.EncodeToString data.
Proof.
  intros Hread. rewrite !encodeFileIntoMemory_spec. unfold file_bytes.
  cbn [multipart.Open]. rewrite Hread.
  cbn [ReadAll bytes_NewReader]. rewrite app_nil_r. split; reflexivity.
Qed.

(** X5.  [encodeFileIntoMemory] returns no error exactly when the file opens
    and reads to its end; it then returns a [file/base64] part with the given
    name, and otherwise the zero part with the error met. *)
Theorem encodeFileIntoMemory_succeeds_iff (name : string) (file : multipart.FileHeader) :
  (snd (encodeFileIntoMemory name file) = None
   <-> exists data, file_bytes file = inl data)
  /\ (forall err, snd (encodeFileIntoMemory name file) = Some err ->
        file_bytes file = inr err /\ fst (encodeFileIntoMemory name file) = part_zero)
  /\ (snd (encodeFileIntoMemory name file) = None ->
        Name (fst (encodeFileIntoMemory name file)) = name
        /\ Type_ (fst (encodeFileIntoMemory name file)) = "file/base64").
Proof.
  rewrite encodeFileIntoMemory_spec.
  destruct (file_bytes file) as [data | err0]; cbn [fst snd].
  - split; [split; eauto |]. split; [discriminate | auto].
  - split; [split; [discriminate | intros (data & H); discriminate] |].
    split; [| discriminate]. intros err H. injection H as <-. auto.
Qed.

(** X6.  The value of a file part is four characters for every three bytes
    of content, the last group being padded: its length is
    [4 * ceil(n / 3)] for a file of [n] bytes. *)
Theorem file_part_value_length (name : string) (file : multipart.FileHeader)
    (data : list byte) :
  file_bytes file = inl data ->
  String.length (Value (fst (encodeFileIntoMemory name file)))
  = (4 * ((length data + 2) / 3))%nat.
Proof.
  intros Hdata. rewrite encodeFileIntoMemory_spec, Hdata. cbn [fst file_part Value].
  unfold base64.EncodeToString.
  rewrite string_of_list_byte_length. apply base64_facts.Encode_length.
Qed.

(** X7.  Two files whose parts carry the same value have the same content:
    the encoding loses nothing. *)
Theorem file_part_value_injective (name1 name2 : string)
    (file1 file2 : multipart.FileHeader) (p1 p2 : part) :
  encodeFileIntoMemory name1 file1 = (p1, None) ->
  encodeFileIntoMemory name2 file2 = (p2, None) ->
  Value p1 = Value p2 ->
  file_bytes file1 = file_bytes file2.
Proof.
  rewrite !encodeFileIntoMemory_spec.
  destruct (file_bytes file1) as [d1 | e1]; [| discriminate].
  destruct (file_bytes file2) as [d2 | e2]; [| discriminate].
  intros H1 H2 Hv. injection H1 as <-. injection H2 as <-.
  cbn [file_part Value] in Hv.
  apply (f_equal base64.DecodeString) in Hv.
  rewrite !EncodeToString_decodes in Hv. congruence.
Qed.

(** X8.  An uploaded file without content gives a part whose value is the
    empty string, which [omitempty] then leaves out of the JSON object: the
    object of a file part has a [value] member exactly when the file is not
    empty. *)
Theorem empty_file_has_no_value_member (name : string) (file : multipart.FileHeader)
    (data : list byte) :
  file_bytes file = inl data ->
  (In "value" (member_keys (marshal_part (fst (encodeFileIntoMemory name file))))
   <-> data <> [])
  /\ In "type" (member_keys (marshal_part (fst (encodeFileIntoMemory name file)))).
Proof.
  intros Hdata. rewrite encodeFileIntoMemory_spec, Hdata. cbn [fst].
  assert (Hempty : base64.EncodeToString data = "" <-> data = []).
  { split.
    - intros H. apply string_of_list_byte_nil_inv, base64_facts.Encode_nil_inv in H.
      exact H.
    - intros ->. reflexivity. }
  unfold marshal_part, member_keys, file_part, omitempty.
  cbn [Name Type_ Value ContentType FileName].
  rewrite !map_app.
  change (String.eqb "file/base64" "") with false. cbn iota.
  split.
  - rewrite !in_app_iff.
    destruct (String.eqb_spec (base64.EncodeToString data) "") as [Hv | Hv].
    + split.
      * intros [Hin | [Hin | [Hin | [Hin | Hin]]]].
        -- destruct (String.eqb name ""); cbn in Hin; intuition discriminate.
        -- cbn in Hin; intuition discriminate.
        -- destruct Hin.
        -- destruct (String.eqb _ ""); cbn in Hin; intuition discriminate.
        -- destruct (String.eqb _ ""); cbn in Hin; intuition discriminate.
      * intros Hne. apply Hempty in Hv. contradiction.
    + split.
      * intros _ Hnil. apply Hv, Hempty, Hnil.
      * intros _. right. right. left. left. reflexivity.
  - rewrite !in_app_iff. right. left. left. reflexivity.
Qed.

(** ** The part list as a whole *)

Lemma file_parts_ok_iff (files : list (string * multipart.FileHeader)) (ps : list part) :
  file_parts files = inl ps
  <-> Forall (fun nf => exists data, file_bytes nf.2 = inl data) files
      /\ ps = map expected_file_part files.
Proof.
  revert ps. induction files as [| [name file] files IH]; intros ps; cbn [file_parts map].
  - split.
    + intros H. injection H as <-. split; [constructor | reflexivity].
    + intros [_ ->]. reflexivity.
  - unfold expected_file_part at 1. cbn [fst snd].
    destruct (file_bytes file) as [data | err] eqn:Hdata.
    + destruct (file_parts files) as [ps' | err] eqn:Hparts.
      * destruct (proj1 (IH ps') eq_refl) as [Hall ->]. split.
        -- intros H. injection H as <-. split; [| reflexivity].
           constructor; [cbn; eauto | exact Hall].
        -- intros [_ ->]. reflexivity.
      * split; [discriminate |]. intros [Hall _].
        apply Forall_cons in Hall as [_ Hall].
        specialize (proj2 (IH _) (conj Hall eq_refl)). discriminate.
    + split; [discriminate |]. intros [Hall _].
      apply Forall_cons in Hall as [(data & Hbad) _]. cbn in Hbad. congruence.
Qed.

Lemma file_parts_Permutation (l1 l2 : list (string * multipart.FileHeader))
    (ps1 : list part) :
  l1 ≡ₚ l2 -> file_parts l1 = inl ps1 ->
  exists ps2, file_parts l2 = inl ps2 /\ ps1 ≡ₚ ps2.
Proof.
  intros Hperm H. apply file_parts_ok_iff in H as [Hall ->].
  exists (map expected_file_part l2). split.
  - apply file_parts_ok_iff. split; [| reflexivity]. rewrite <- Hperm. exact Hall.
  - apply Permutation_map. exact Hperm.
Qed.

Section further_order.
Context {rt : http.Runtime} {laws : http.RangeLaws rt}.

Lemma fields_in_order_Permutation (form : multipart.Form) :
  fields_in_order form ≡ₚ submitted_fields form.
Proof.
  unfold fields_in_order, submitted_fields.
  apply flatten_Permutation, http.range_Value_perm.
Qed.

Lemma files_in_order_Permutation (form : multipart.Form) :
  files_in_order form ≡ₚ uploaded_files form.
Proof.
  unfold files_in_order, uploaded_files.
  apply flatten_Permutation, http.range_File_perm.
Qed.

(** X9.  In a successful conversion every submitted (name, value) pair gives
    exactly one text part, which has no content type and no file name, and
    the number of parts is the number of submitted values plus the number of
    uploaded files. *)
Theorem text_parts_exactly_once (h : Handler) (r r' : http.Request) :
  eligible r = true -> ServeHTTP h r = Next r' ->
  exists (r1 : http.Request) (form : multipart.Form) (texts files : list part),
    http.ParseMultipartForm r (MemoryLimit h) = (r1, None)
    /\ http.MultipartForm r1 = http.parsedForm form
    /\ http.Body r' = http.NopCloser (json_body (texts ++ files))
    /\ texts ≡ₚ map (fun nv => mkPart nv.1 "field/text" nv.2 "" "") (submitted_fields form)
    /\ length files = length (uploaded_files form)
    /\ length (texts ++ files)
       = (length (submitted_fields form) + length (uploaded_files form))%nat.
Proof.
  intros Hel Hnext.
  destruct (ServeHTTP_converted h r r' Hel Hnext)
    as (r1 & form & ps & Hparse & Hform & Hparts & _ & ->).
  destruct (converted_parts_inv form ps Hparts) as (files & -> & Hfiles).
  exists r1, form, (text_parts (fields_in_order form)), files.
  split; [exact Hparse |]. split; [exact Hform |]. split; [reflexivity |].
  assert (Hlen : length files = length (uploaded_files form)).
  { apply file_parts_ok_iff in Hfiles as [_ ->].
    rewrite length_map. apply Permutation_length, files_in_order_Permutation. }
  split; [| split; [exact Hlen |]].
  - unfold text_parts. apply Permutation_map, fields_in_order_Permutation.
  - rewrite length_app, Hlen. unfold text_parts. rewrite length_map.
    rewrite (Permutation_length (fields_in_order_Permutation form)). reflexivity.
Qed.

End further_order.

(** X10.  The order in which the two maps are iterated changes neither
    whether the parts can be built nor which parts are built: under any two
    iteration orders the part lists are permutations of each other. *)
Theorem iteration_order_only_permutes (rt1 rt2 : http.Runtime)
    (laws1 : http.RangeLaws rt1) (laws2 : http.RangeLaws rt2)
    (form : multipart.Form) (ps1 : list part) :
  converted_parts (rt := rt1) form = inl ps1 ->
  exists ps2, converted_parts (rt := rt2) form = inl ps2 /\ ps1 ≡ₚ ps2.
Proof.
  intros H.
  destruct (converted_parts_inv (rt := rt1) form ps1 H) as (files1 & -> & Hfiles1).
  assert (Hperm : files_in_order (rt := rt1) form ≡ₚ files_in_order (rt := rt2) form).
  { rewrite (files_in_order_Permutation (rt := rt1)).
    symmetry. apply (files_in_order_Permutation (rt := rt2)). }
  destruct (file_parts_Permutation _ _ _ Hperm Hfiles1) as (files2 & Hfiles2 & Hpf).
  exists (text_parts (fields_in_order (rt := rt2) form) ++ files2). split.
  - unfold converted_parts. rewrite Hfiles2. reflexivity.
  - apply Permutation_app; [| exact Hpf].
    unfold text_parts. apply Permutation_map.
    rewrite (fields_in_order_Permutation (rt := rt1)).
    symmetry. apply (fields_in_order_Permutation (rt := rt2)).
Qed.

(** ** The media type of plain ASCII content types *)

Lemma rev_append_app (s a b : string) :
  strings.rev_append s (a +:+ b) = strings.rev_append s a +:+ b.
Proof.
  revert a. induction s as [| c s IH]; intros a; [reflexivity |].
  cbn [strings.rev_append].
  change (String c (a +:+ b)) with (String c a +:+ b). apply IH.
Qed.

Lemma rev_cons (c : ascii) (s : string) :
  strings.rev (String c s) = strings.rev s +:+ String c "".
Proof.
  unfold strings.rev. cbn [strings.rev_append].
  change (String c "") with ("" +:+ String c ""). apply rev_append_app.
Qed.

Lemma rev_append_snoc (y acc : string) (c : ascii) :
  strings.rev_append (y +:+ String c "") acc = String c (strings.rev_append y acc).
Proof.
  revert acc. induction y as [| d y IH]; intros acc; [reflexivity |].
  change (String d y +:+ String c "") with (String d (y +:+ String c "")).
  cbn [strings.rev_append]. apply IH.
Qed.

Lemma existsb_rev_append (p : ascii -> bool) (s acc : string) :
  strings.existsb p (strings.rev_append s acc)
  = strings.existsb p s || strings.existsb p acc.
Proof.
  revert acc. induction s as [| c s IH]; intros acc; [reflexivity |].
  cbn [strings.rev_append strings.existsb]. rewrite IH. cbn [strings.existsb].
  destruct (p c), (strings.existsb p s), (strings.existsb p acc); reflexivity.
Qed.

(** Trimming from the end keeps a last character that is not a space. *)
Lemma trimEndASCII_snoc (x : string) (c : ascii) :
  strings.existsb strings.nonASCII x = false ->
  strings.nonASCII c = false -> strings.asciiSpace c = false ->
  exists y, strings.trimEndASCII (x +:+ String c "") = inl (y +:+ String c "").
Proof.
  intros Hx Hc Hsp. induction x as [| d x IH].
  - exists "". change ("" +:+ String c "") with (String c "").
    cbn [strings.trimEndASCII]. rewrite Hc, Hsp. reflexivity.
  - cbn [strings.existsb] in Hx. apply orb_false_iff in Hx as [Hd Hx].
    change (String d x +:+ String c "") with (String d (x +:+ String c "")).
    cbn [strings.trimEndASCII]. rewrite Hd.
    destruct (strings.asciiSpace d).
    + apply IH. exact Hx.
    + exists (String d x). reflexivity.
Qed.

(** [TrimSpace] keeps the first character of an ASCII string that does not
    begin with a space. *)
Lemma TrimSpace_first (slowBoth slowRight : string -> string) (c : ascii) (s : string) :
  strings.existsb strings.nonASCII (String c s) = false ->
  strings.asciiSpace c = false ->
  exists u, strings.TrimSpace slowBoth slowRight (String c s) = String c u.
Proof.
  intros Hascii Hsp.
  cbn [strings.existsb] in Hascii. apply orb_false_iff in Hascii as [Hc Hs].
  cbn [strings.TrimSpace]. rewrite Hc, Hsp. rewrite rev_cons.
  assert (Hrev : strings.existsb strings.nonASCII (strings.rev s) = false).
  { unfold strings.rev. rewrite existsb_rev_append, Hs. reflexivity. }
  destruct (trimEndASCII_snoc (strings.rev s) c Hrev Hc Hsp) as [y ->].
  exists (strings.rev y). unfold strings.rev. apply rev_append_snoc.
Qed.

Lemma existsb_CutBefore (p : ascii -> bool) (sep : ascii) (s : string) :
  strings.existsb p s = false -> strings.existsb p (strings.CutBefore sep s) = false.
Proof.
  induction s as [| c s IH]; [reflexivity |].
  cbn [strings.existsb strings.CutBefore]. intros H.
  apply orb_false_iff in H as [Hc Hs].
  destruct (Ascii.eqb c sep); [reflexivity |].
  cbn [strings.existsb]. rewrite Hc, IH by exact Hs. reflexivity.
Qed.

Lemma lowerByte_ascii (c : ascii) :
  strings.nonASCII c = false -> strings.nonASCII (strings.lowerByte c) = false.
Proof.
  destruct c as [[] [] [] [] [] [] [] []]; vm_compute; intros H; congruence.
Qed.

Lemma existsb_mapBytes_lower (s : string) :
  strings.existsb strings.nonASCII s = false ->
  strings.existsb strings.nonASCII (strings.mapBytes strings.lowerByte s) = false.
Proof.
  induction s as [| c s IH]; [reflexivity |].
  cbn [strings.existsb strings.mapBytes]. intros H.
  apply orb_false_iff in H as [Hc Hs].
  rewrite lowerByte_ascii, IH by assumption. reflexivity.
Qed.

Section further_media.
Context {rt : http.Runtime}.

(** The media type computed for an ASCII content type that begins with the
    lower-case letter [a] begins with that letter. *)
Lemma mediatype_first_a (ct : string) :
  strings.existsb strings.nonASCII (String "a" ct) = false ->
  exists u,
    strings.TrimSpace http.unicode_TrimSpace http.unicode_TrimRightSpace
      (strings.ToLower http.unicode_ToLower (strings.CutBefore ";" (String "a" ct)))
    = String "a" u.
Proof.
  intros Hascii.
  assert (Hbase : strings.existsb strings.nonASCII (strings.CutBefore ";" (String "a" ct))
                  = false) by (apply existsb_CutBefore; exact Hascii).
  unfold strings.ToLower. rewrite Hbase.
  apply existsb_mapBytes_lower in Hbase.
  change (strings.CutBefore ";" (String "a" ct))
    with (String "a" (strings.CutBefore ";" ct)) in *.
  change (strings.mapBytes strings.lowerByte (String "a" (strings.CutBefore ";" ct)))
    with (String "a" (strings.mapBytes strings.lowerByte (strings.CutBefore ";" ct))) in *.
  apply TrimSpace_first; [exact Hbase | reflexivity].
Qed.

Lemma multipartReader_first_a (r : http.Request) (ct : string) :
  textproto.Get (http.Header r) "Content-Type" = String "a" ct ->
  strings.existsb strings.nonASCII (String "a" ct) = false ->
  http.multipartReader r = inr ErrNotMultipart.
Proof.
  intros Hct Hascii. unfold http.multipartReader. rewrite Hct.
  cbn [String.eqb]. unfold http.ParseMediaType, mime.ParseMediaType.
  destruct (mediatype_first_a ct Hascii) as [u ->].
  destruct (mime.checkMediaTypeDisposition (String "a" u)); [reflexivity |].
  destruct (if String.eqb _ "" then _ else _) as [params | err]; reflexivity.
Qed.

(** X11.  No URL-encoded form is ever converted: a fresh POST request whose
    Content-Type begins with [application/x-www-form-urlencoded] and is made
    of ASCII characters passes the gate and is then answered with an HTTP 400
    error caused by [http.ErrNotMultipart], whatever its parameters and its
    body; the next handler is not called. *)
Theorem urlencoded_forms_never_convert (h : Handler) (r : http.Request) :
  http.Method r = "POST" ->
  http.MultipartForm r = http.nilForm ->
  String.prefix "application/x-www-form-urlencoded"
    (textproto.Get (http.Header r) "Content-Type") = true ->
  strings.existsb strings.nonASCII (textproto.Get (http.Header r) "Content-Type") = false ->
  eligible r = true
  /\ exists r1 : http.Request,
       http.Header r1 = http.Header r
       /\ ServeHTTP h r = Abort r1 (mkHandlerError 400 ErrNotMultipart).
Proof.
  intros Hmethod Hmf Hprefix Hascii.
  assert (Hel : eligible r = true).
  { unfold eligible. rewrite Hmethod, Hprefix. reflexivity. }
  split; [exact Hel |].
  apply refused_by_multipartReader; [exact Hel | exact Hmf |].
  destruct (textproto.Get (http.Header r) "Content-Type") as [| c ct] eqn:Hct;
    [discriminate Hprefix |].
  assert (c = "a"%char) as ->.
  { cbn [String.prefix] in Hprefix.
    destruct (ascii_dec "a" c) as [<- | _]; [reflexivity | discriminate]. }
  apply (multipartReader_first_a r ct Hct Hascii).
Qed.

(** X12.  When an earlier handler has already parsed the form of an eligible
    request, [ServeHTTP] converts that form as it stands: the form parser and
    the body are not consulted, the memory limit plays no part, and the
    outcome is decided by the files and the clean-up alone. *)
Theorem already_parsed_form_is_converted (h : Handler) (r : http.Request)
    (form : multipart.Form) (values : gmap string (list string)) :
  eligible r = true ->
  http.MultipartForm r = http.parsedForm form ->
  http.Form r = Some values ->
  ServeHTTP h r =
  match converted_parts form with
  | inr err => Abort (abandoned_request r) (mkHandlerError 500 err)
  | inl ps =>
      match http.RemoveAll form with
      | Some err => Abort (abandoned_request r) (mkHandlerError 500 err)
      | None => Next (converted_request r (json_body ps))
      end
  end.
Proof.
  intros Hel Hmf Hform.
  rewrite ServeHTTP_refines, Hel. unfold conversion, http.ParseMultipartForm.
  rewrite Hmf, Hform. cbn iota beta zeta. rewrite !Hmf. cbn [http.deref]. reflexivity.
Qed.

End further_media.

(** ** The JSON object of a part *)


(** ** The document and the gate *)

Section further_document.
Context {rt : http.Runtime} {laws : http.RangeLaws rt}.

Lemma converted_parts_length (form : multipart.Form) (ps : list part) :
  converted_parts form = inl ps ->
  length ps = (length (submitted_fields form) + length (uploaded_files form))%nat.
Proof.
  intros H. destruct (converted_parts_inv form ps H) as (files & -> & Hfiles).
  apply file_parts_ok_iff in Hfiles as [_ ->].
  unfold text_parts. rewrite length_app, !length_map.
  rewrite (Permutation_length (fields_in_order_Permutation form)).
  rewrite (Permutation_length (files_in_order_Permutation form)). reflexivity.
Qed.

(** X14.  The document written as the new body of a successful conversion is
    a JSON array holding one object per submitted value and uploaded file
    when the form has at least one of them, and the JSON [null] when it has
    none. *)
Theorem body_document_shape (h : Handler) (r r' : http.Request) :
  eligible r = true -> ServeHTTP h r = Next r' ->
  exists (r1 : http.Request) (form : multipart.Form) (doc : json.value),
    http.ParseMultipartForm r (MemoryLimit h) = (r1, None)
    /\ http.MultipartForm r1 = http.parsedForm form
    /\ http.Body r'
       = http.NopCloser (list_byte_of_string (json.render doc +:+ json.newline))
    /\ (submitted_fields form = [] /\ uploaded_files form = [] -> doc = json.Null)
    /\ (submitted_fields form <> [] \/ uploaded_files form <> [] ->
        exists objects : list json.value,
          doc = json.Array objects
          /\ length objects
             = (length (submitted_fields form) + length (uploaded_files form))%nat
          /\ Forall (fun v => exists members, v = json.Object members) objects).
Proof.
  intros Hel Hnext.
  destruct (ServeHTTP_converted h r r' Hel Hnext)
    as (r1 & form & ps & Hparse & Hform & Hparts & _ & ->).
  pose proof (converted_parts_length form ps Hparts) as Hlen.
  exists r1, form, (marshal (slice_of_list ps)).
  split; [exact Hparse |]. split; [exact Hform |]. split; [reflexivity |]. split.
  - intros [Hf Hu]. rewrite Hf, Hu in Hlen. destruct ps; [reflexivity | discriminate].
  - intros Hne.
    assert (Hps : ps <> []).
    { intros ->. cbn [length] in Hlen.
      destruct (submitted_fields form), (uploaded_files form);
        cbn [length] in Hlen; try lia. destruct Hne; congruence. }
    destruct (marshal_nonempty ps Hps) as [Hdoc Hobj].
    exists (map marshal_part ps). rewrite length_map. auto.
Qed.

End further_document.

(** X15.  An eligible request never reaches the next handler as it came: it
    is either answered with an error or forwarded with a content type,
    [application/json], that it did not have. *)
Theorem eligible_request_is_not_forwarded_unchanged {rt : http.Runtime}
    (h : Handler) (r : http.Request) :
  eligible r = true ->
  ServeHTTP h r <> Next r
  /\ forall r', ServeHTTP h r = Next r' ->
       textproto.Get (http.Header r') "Content-Type"
       <> textproto.Get (http.Header r) "Content-Type".
Proof.
  intros Hel.
  assert (Hdiff : forall r', ServeHTTP h r = Next r' ->
            textproto.Get (http.Header r') "Content-Type"
            <> textproto.Get (http.Header r) "Content-Type").
  { intros r' Hnext Heq.
    rewrite (converted_content_type h r r' Hel Hnext) in Heq.
    unfold eligible in Hel. rewrite <- Heq in Hel.
    rewrite andb_false_r in Hel. discriminate. }
  split; [| exact Hdiff].
  intros Hnext. apply (Hdiff r Hnext). reflexivity.
Qed.

(** ** The buffer pool *)

(** X16.  Whatever the buffer taken from the pool holds when it is handed
    out, the call ends as it does with a new buffer: the buffer is reset
    before the document is written, so bytes of an earlier request never
    show in the body.  A buffer is taken, and given back to the pool on
    return, exactly when the conversion succeeds, and the body handed to the
    next handler reads from that very buffer. *)
Theorem pooled_buffer_content_is_irrelevant {rt : http.Runtime}
    (got : list byte) (h : Handler) (r : http.Request) :
  fst (ServeHTTP_pooled got h r) = ServeHTTP h r
  /\ ServeHTTP_pooled got h r = ServeHTTP_pooled bufPool_New h r
  /\ (forall buf, snd (ServeHTTP_pooled got h r) = Some buf ->
        eligible r = true
        /\ exists r', ServeHTTP h r = Next r' /\ http.Body r' = http.NopCloser buf)
  /\ (snd (ServeHTTP_pooled got h r) = None ->
        eligible r = false \/ exists r' e, ServeHTTP h r = Abort r' e).
Proof.
  assert (Hel : eligible r = false -> ServeHTTP_pooled got h r = (Next r, None)).
  { unfold eligible, ServeHTTP_pooled, http.MethodPost. rewrite !HasPrefix_prefix.
    destruct (String.eqb (http.Method r) "POST"); cbn [negb andb]; [| reflexivity].
    destruct (String.prefix "application/x-www-form-urlencoded" _);
      destruct (String.prefix "multipart/form-data" _); cbn [negb andb orb];
      try discriminate; reflexivity. }
  assert (Hfst : fst (ServeHTTP_pooled got h r) = ServeHTTP h r).
  { unfold ServeHTTP_pooled, ServeHTTP.
    destruct (negb _); [reflexivity |]. destruct (_ && _); [reflexivity |].
    destruct (http.ParseMultipartForm r (MemoryLimit h)) as [r1 [err |]];
      [reflexivity |].
    destruct (http.deref _) as [form |]; [| reflexivity].
    destruct (convert_files _ _) as [converted | err]; [| reflexivity].
    destruct (http.RemoveAll form) as [err |]; reflexivity. }
  split; [exact Hfst |]. split; [| split].
  - unfold ServeHTTP_pooled.
    destruct (negb _); [reflexivity |]. destruct (_ && _); [reflexivity |].
    destruct (http.ParseMultipartForm r (MemoryLimit h)) as [r1 [err |]];
      [reflexivity |].
    destruct (http.deref _) as [form |]; [| reflexivity].
    destruct (convert_files _ _) as [converted | err]; [| reflexivity].
    destruct (http.RemoveAll form) as [err |]; reflexivity.
  - intros buf Hsnd. destruct (eligible r) eqn:Heq.
    + split; [reflexivity |]. rewrite <- Hfst. revert Hsnd.
      unfold ServeHTTP_pooled.
      destruct (negb _); [discriminate |]. destruct (_ && _); [discriminate |].
      destruct (http.ParseMultipartForm r (MemoryLimit h)) as [r1 [err |]];
        [discriminate |].
      destruct (http.deref _) as [form |]; [| discriminate].
      destruct (convert_files _ _) as [converted | err]; [| discriminate].
      destruct (http.RemoveAll form) as [err |]; [discriminate |].
      cbn [Encode_into fst snd]. intros H. injection H as <-.
      eexists. split; reflexivity.
    + rewrite (Hel eq_refl) in Hsnd. discriminate.
  - intros Hsnd. destruct (eligible r) eqn:Heq; [right | left; reflexivity].
    rewrite <- Hfst. revert Hsnd. unfold ServeHTTP_pooled.
    assert (Hgate : negb (String.eqb (http.Method r) http.MethodPost) = false
                    /\ negb (strings.HasPrefix (textproto.Get (http.Header r) "Content-Type")
                               "application/x-www-form-urlencoded")
                       && negb (strings.HasPrefix (textproto.Get (http.Header r) "Content-Type")
                                  "multipart/form-data") = false).
    { unfold eligible in Heq. rewrite !HasPrefix_prefix. unfold http.MethodPost.
      apply andb_true_iff in Heq as [-> Hp]. split; [reflexivity |].
      destruct (String.prefix "application/x-www-form-urlencoded" _);
        destruct (String.prefix "multipart/form-data" _); cbn in *; congruence. }
    destruct Hgate as [-> ->].
    destruct (http.ParseMultipartForm r (MemoryLimit h)) as [r1 [err |]] eqn:Hparse.
    { intros _. cbn [fst]. eauto. }
    destruct (ParseMultipartForm_parsed _ _ _ Hparse) as [form Hform].
    change (http.MultipartForm (http.set_Body r1 (http.Close (http.Body r1))))
      with (http.MultipartForm r1).
    rewrite Hform. cbn [http.deref].
    destruct (convert_files _ _) as [converted | err]; [| intros _; cbn [fst]; eauto].
    destruct (http.RemoveAll form) as [err |]; [intros _; cbn [fst]; eauto |].
    cbn [Encode_into snd]. discriminate.
Qed.

Lemma pooled_buffer_content_is_irrelevant_witness :
  fst (ServeHTTP_pooled (rt := demo.runtime) (demo.bytes "bytes of another request")
         (mkHandler 0) (demo.post_multipart "alice"))
  = Next (demo.converted "alice" demo.form_alice demo.alice_parts)
  /\ snd (ServeHTTP_pooled (rt := demo.runtime) (demo.bytes "bytes of another request")
            (mkHandler 0) (demo.post_multipart "alice"))
     = Some (json_body (rt := demo.runtime) demo.alice_parts).
Proof.
  split.
  - rewrite (proj1 (pooled_buffer_content_is_irrelevant (rt := demo.runtime)
                      (demo.bytes "bytes of another request") (mkHandler 0)
                      (demo.post_multipart "alice"))).
    vm_compute. reflexivity.
  - vm_compute. reflexivity.
Defined.

(** ** The further properties on the sample requests *)

Lemma demo_rev_range_laws : http.RangeLaws demo.runtime_rev.
Proof. split; intros m; apply reverse_Permutation. Qed.

Lemma abort_leaves_request_metadata_witness :
  eligible (demo.post_multipart "broken") = true
  /\ http.Method (abandoned_request (demo.parsed "broken" demo.form_broken))
     = http.Method (demo.post_multipart "broken")
  /\ http.Header (abandoned_request (demo.parsed "broken" demo.form_broken))
     = http.Header (demo.post_multipart "broken")
  /\ http.ContentLength (abandoned_request (demo.parsed "broken" demo.form_broken))
     = http.ContentLength (demo.post_multipart "broken")
  /\ (StatusCode (mkHandlerError 500 demo.disk_error) = 400
        /\ snd (http.ParseMultipartForm (rt := demo.runtime)
                  (demo.post_multipart "broken") (MemoryLimit (mkHandler 0)))
           = Some (Err (mkHandlerError 500 demo.disk_error))
      \/ StatusCode (mkHandlerError 500 demo.disk_error) = 500
        /\ snd (http.ParseMultipartForm (rt := demo.runtime)
                  (demo.post_multipart "broken") (MemoryLimit (mkHandler 0)))
           = None).
Proof.
  apply (abort_leaves_request_metadata (rt := demo.runtime) (mkHandler 0)
           (demo.post_multipart "broken")).
  vm_compute. reflexivity.
Defined.

Lemma conversion_keeps_other_headers_witness :
  textproto.Get
    (http.Header (converted_request (demo.preparsed demo.form_dup)
                    (json_body (rt := demo.runtime)
                       [text_part "a" "1"; text_part "a" "2"])))
    "x-trace"
  = textproto.Get (http.Header (demo.preparsed demo.form_dup)) "x-trace".
Proof.
  refine (proj2 (conversion_keeps_other_headers (rt := demo.runtime) (mkHandler 0)
                   (demo.preparsed demo.form_dup) _ _ _) "x-trace" _ _ _).
  - vm_compute. reflexivity.
  - vm_compute. reflexivity.
  - vm_compute. discriminate.
  - vm_compute. discriminate.
  - vm_compute. discriminate.
Defined.

Lemma forwarded_request_is_passed_through_witness :
  ServeHTTP (rt := demo.runtime) (mkHandler 64)
    (demo.converted "alice" demo.form_alice demo.alice_parts)
  = Next (demo.converted "alice" demo.form_alice demo.alice_parts).
Proof.
  apply (forwarded_request_is_passed_through (rt := demo.runtime) (mkHandler 0)
           (mkHandler 64) (demo.post_multipart "alice")).
  vm_compute. reflexivity.
Defined.

Lemma encodeFileIntoMemory_chunking_witness :
  encodeFileIntoMemory "avatar" demo.avatar
  = encodeFileIntoMemory "avatar" demo.avatar_in_memory
  /\ Value (fst (encodeFileIntoMemory "avatar" demo.avatar))
     = base64.EncodeToString (demo.bytes "PNGDATA").
Proof.
  apply (encodeFileIntoMemory_chunking "avatar" "avatar.png"
           {[ "Content-Type" := ["image/png"] ]} 7 7
           (Data (demo.bytes "PNG") (Data (demo.bytes "DATA") EOF))
           (demo.bytes "PNGDATA")).
  vm_compute. reflexivity.
Defined.

Lemma encodeFileIntoMemory_succeeds_iff_witness :
  snd (encodeFileIntoMemory "avatar" demo.avatar) = None
  /\ file_bytes demo.broken = inr demo.disk_error
  /\ fst (encodeFileIntoMemory "upload" demo.broken) = part_zero.
Proof.
  split.
  - apply (proj2 (proj1 (encodeFileIntoMemory_succeeds_iff "avatar" demo.avatar))).
    exists (demo.bytes "PNGDATA"). vm_compute. reflexivity.
  - apply (proj1 (proj2 (encodeFileIntoMemory_succeeds_iff "upload" demo.broken))
             demo.disk_error).
    vm_compute. reflexivity.
Defined.

Lemma file_part_value_length_witness :
  String.length (Value (fst (encodeFileIntoMemory "avatar" demo.avatar)))
  = (4 * ((length (demo.bytes "PNGDATA") + 2) / 3))%nat.
Proof.
  apply (file_part_value_length "avatar" demo.avatar (demo.bytes "PNGDATA")).
  vm_compute. reflexivity.
Defined.

Lemma file_part_value_injective_witness :
  file_bytes demo.avatar = file_bytes demo.avatar_in_memory.
Proof.
  apply (file_part_value_injective "avatar" "copy" demo.avatar demo.avatar_in_memory
           (file_part "avatar" demo.avatar (demo.bytes "PNGDATA"))
           (file_part "copy" demo.avatar_in_memory (demo.bytes "PNGDATA"))).
  - vm_compute. reflexivity.
  - vm_compute. reflexivity.
  - vm_compute. reflexivity.
Defined.

Lemma empty_file_has_no_value_member_witness :
  (In "value" (member_keys (marshal_part (fst (encodeFileIntoMemory "doc" demo.empty_file))))
   <-> @nil byte <> [])
  /\ In "type" (member_keys (marshal_part (fst (encodeFileIntoMemory "doc" demo.empty_file)))).
Proof.
  apply (empty_file_has_no_value_member "doc" demo.empty_file []).
  vm_compute. reflexivity.
Defined.

Lemma text_parts_exactly_once_witness :
  exists (r1 : http.Request) (form : multipart.Form) (texts files : list part),
    http.ParseMultipartForm (rt := demo.runtime) (demo.post_multipart "dup") 0 = (r1, None)
    /\ http.MultipartForm r1 = http.parsedForm form
    /\ http.Body (demo.converted "dup" demo.form_dup
                    [text_part "a" "1"; text_part "a" "2"])
       = http.NopCloser (json_body (rt := demo.runtime) (texts ++ files))
    /\ texts ≡ₚ map (fun nv => mkPart nv.1 "field/text" nv.2 "" "") (submitted_fields form)
    /\ length files = length (uploaded_files form)
    /\ length (texts ++ files)
       = (length (submitted_fields form) + length (uploaded_files form))%nat.
Proof.
  apply (text_parts_exactly_once (rt := demo.runtime) (laws := demo_range_laws)
           (mkHandler 0) (demo.post_multipart "dup")).
  - vm_compute. reflexivity.
  - vm_compute. reflexivity.
Defined.

Lemma iteration_order_only_permutes_witness :
  exists ps2,
    converted_parts (rt := demo.runtime_rev) demo.form_two = inl ps2
    /\ [text_part "a" "1"; text_part "a" "2"; text_part "b" "3";
        file_part "avatar" demo.avatar (demo.bytes "PNGDATA");
        file_part "doc" demo.empty_file []] ≡ₚ ps2.
Proof.
  apply (iteration_order_only_permutes demo.runtime demo.runtime_rev
           demo_range_laws demo_rev_range_laws demo.form_two).
  vm_compute. reflexivity.
Defined.

Lemma urlencoded_forms_never_convert_witness :
  eligible (demo.request "POST" "application/x-www-form-urlencoded; charset=UTF-8"
              "a=1&a=2") = true
  /\ exists r1 : http.Request,
       http.Header r1
       = http.Header (demo.request "POST"
                        "application/x-www-form-urlencoded; charset=UTF-8" "a=1&a=2")
       /\ ServeHTTP (rt := demo.runtime) (mkHandler 0)
            (demo.request "POST" "application/x-www-form-urlencoded; charset=UTF-8"
               "a=1&a=2")
          = Abort r1 (mkHandlerError 400 ErrNotMultipart).
Proof.
  apply (urlencoded_forms_never_convert (rt := demo.runtime)).
  - vm_compute. reflexivity.
  - vm_compute. reflexivity.
  - vm_compute. reflexivity.
  - vm_compute. reflexivity.
Defined.

Lemma already_parsed_form_is_converted_witness :
  ServeHTTP (rt := demo.runtime) (mkHandler 0) (demo.preparsed demo.form_dup) =
  match converted_parts (rt := demo.runtime) demo.form_dup with
  | inr err => Abort (abandoned_request (demo.preparsed demo.form_dup))
                 (mkHandlerError 500 err)
  | inl ps =>
      match http.RemoveAll (Runtime := demo.runtime) demo.form_dup with
      | Some err => Abort (abandoned_request (demo.preparsed demo.form_dup))
                      (mkHandlerError 500 err)
      | None => Next (converted_request (demo.preparsed demo.form_dup)
                        (json_body (rt := demo.runtime) ps))
      end
  end.
Proof.
  apply (already_parsed_form_is_converted (rt := demo.runtime) (mkHandler 0)
           (demo.preparsed demo.form_dup) demo.form_dup ∅).
  - vm_compute. reflexivity.
  - vm_compute. reflexivity.
  - vm_compute. reflexivity.
Defined.

Lemma body_document_shape_witness :
  exists (r1 : http.Request) (form : multipart.Form) (doc : json.value),
    http.ParseMultipartForm (rt := demo.runtime) (demo.post_multipart "alice") 0
      = (r1, None)
    /\ http.MultipartForm r1 = http.parsedForm form
    /\ http.Body (demo.converted "alice" demo.form_alice demo.alice_parts)
       = http.NopCloser
           (list_byte_of_string (json.render (rt := demo.runtime) doc +:+ json.newline))
    /\ (submitted_fields form = [] /\ uploaded_files form = [] -> doc = json.Null)
    /\ (submitted_fields form <> [] \/ uploaded_files form <> [] ->
        exists objects : list json.value,
          doc = json.Array objects
          /\ length objects
             = (length (submitted_fields form) + length (uploaded_files form))%nat
          /\ Forall (fun v => exists members, v = json.Object members) objects).
Proof.
  apply (body_document_shape (rt := demo.runtime) (laws := demo_range_laws)
           (mkHandler 0) (demo.post_multipart "alice")).
  - vm_compute. reflexivity.
  - vm_compute. reflexivity.
Defined.

Lemma eligible_request_is_not_forwarded_unchanged_witness :
  ServeHTTP (rt := demo.runtime) (mkHandler 0) (demo.post_multipart "alice")
  <> Next (demo.post_multipart "alice").
Proof.
  apply (eligible_request_is_not_forwarded_unchanged (rt := demo.runtime)
           (mkHandler 0) (demo.post_multipart "alice")).
  vm_compute. reflexivity.
Defined.
